(** * The SIP client of sip-webrtc-client (src/sip-client.js)

    A shallow embedding of the [SIPClient] class: its fields, its public
    commands ([makeCall], [answerCall], [hangupCall], [disconnect]), the
    callbacks it hands to the signalling library (delegate, state-change
    listeners, promise handlers) and the two timers it schedules.

    The signalling library (sip.js) is outside the repository.  Its
    session objects live in a heap, because the client shares them
    between the registry and the closures of its timers; everything the
    client asks of the library is appended to a command log, and
    everything the library does on its own (state changes, transport
    events, timers firing) is an action of the environment. *)

From stdpp Require Import base option list strings.
From Stdlib Require Import ZArith.

Open Scope string_scope.
Open Scope list_scope.

(** ** JavaScript values and the comparisons the client uses *)

Inductive jsval :=
| JUndefined
| JNull
| JBool (b : bool)
| JNum (n : Z)
| JStr (s : string).

(** [v !== false] *)
Definition strict_neq_false (v : jsval) : bool :=
  match v with
  | JBool false => false
  | _ => true
  end.

(** ToBoolean, as used by [!], [&&], [||] and [if]. *)
Definition truthy (v : jsval) : bool :=
  match v with
  | JUndefined | JNull => false
  | JBool b => b
  | JNum n => negb (n =? 0)%Z
  | JStr s => negb (String.eqb s "")
  end.

(** [new Error(message)] *)
Inductive JSError := MkError (message : string).

(** The three errors the client throws, named after the spec's taxonomy
    where it has a name for them. *)
Definition NotRegistered : JSError := MkError "SIP client not connected".
Definition InvalidSession : JSError := MkError "Invalid session or session not found".
Definition SessionNotFound : JSError := MkError "Session not found".

(** ** [Map]: insertion-ordered, one entry per key

    [activeSessions] is a JavaScript [Map] that [disconnect] iterates with
    [for ... of], so the order of insertion is kept: an association list
    in which [set] overwrites an existing key in place. *)

Module JSMap.
Section Ops.
Context {V : Type}.

Fixpoint get (k : string) (m : list (string * V)) : option V :=
  match m with
  | [] => None
  | (k', v) :: m' => if String.eqb k k' then Some v else get k m'
  end.

Definition has (k : string) (m : list (string * V)) : bool :=
  match get k m with Some _ => true | None => false end.

Fixpoint set (k : string) (v : V) (m : list (string * V)) : list (string * V) :=
  match m with
  | [] => [(k, v)]
  | (k', v') :: m' =>
      if String.eqb k k' then (k, v) :: m' else (k', v') :: set k v m'
  end.

Fixpoint delete (k : string) (m : list (string * V)) : list (string * V) :=
  match m with
  | [] => []
  | (k', v') :: m' =>
      if String.eqb k k' then delete k m' else (k', v') :: delete k m'
  end.

Definition keys (m : list (string * V)) : list string := m.*1.
End Ops.
End JSMap.

(** ** Media constraints *)

Record VideoConstraints := {
  width_ideal : Z;
  height_ideal : Z;
  frameRate_ideal : Z
}.

(** [{ width: { ideal: 1280 }, height: { ideal: 720 }, frameRate: { ideal: 30 } }] *)
Definition hdVideo : VideoConstraints :=
  {| width_ideal := 1280; height_ideal := 720; frameRate_ideal := 30 |}.

(** [video] is either the object above or [false] ([None]). *)
Record Constraints := {
  audio : bool;
  video : option VideoConstraints
}.

(** The [options] argument of [makeCall] and [answerCall]; a property that
    is absent reads as [undefined]. *)
Record CallOptions := {
  opt_audio : jsval;
  opt_video : jsval
}.

(** [{}], the default of the [options] parameter. *)
Definition emptyOptions : CallOptions :=
  {| opt_audio := JUndefined; opt_video := JUndefined |}.

(** [options = {}]: the default applies when the argument is omitted. *)
Definition orDefault (options : option CallOptions) : CallOptions :=
  match options with
  | Some o => o
  | None => emptyOptions
  end.

(** [{ audio: options.audio !== false,
       video: options.video !== false ? {...} : false }] *)
Definition constraintsOf (options : CallOptions) : Constraints :=
  {| audio := strict_neq_false (opt_audio options);
     video := if strict_neq_false (opt_video options) then Some hdVideo else None |}.

(** ** Process environment and configuration *)

(** The numbers the timeout computation can meet: what [parseInt] returns
    (NaN, an infinity for a digit string too long for a double, or an
    integer) and what multiplying it by 1000 gives.  Zero stands for both
    of JavaScript's zeros, which behave alike here. *)
Inductive jsnumber :=
| NaN
| Infinite (negative : bool)
| Finite (z : Z).

(** The double nearest to an integer, ties to the even significand: what
    an arithmetic operation on doubles returns when its exact result is
    that integer.  Integers below 2^53 in size are doubles themselves;
    beyond, 53 bits are kept; from 2^1024 on the result is an infinity. *)
Definition roundToDouble (z : Z) : jsnumber :=
  if (Z.abs z <? 2 ^ 53)%Z then Finite z
  else
    let e := (Z.log2 (Z.abs z) - 52)%Z in
    let q := (Z.abs z / 2 ^ e)%Z in
    let r := (Z.abs z mod 2 ^ e)%Z in
    let q' := if (2 ^ (e - 1) <? r)%Z || ((r =? 2 ^ (e - 1))%Z && Z.odd q)
              then (q + 1)%Z else q in
    if (2 ^ 1024 <=? q' * 2 ^ e)%Z then Infinite (z <? 0)%Z
    else Finite (Z.sgn z * (q' * 2 ^ e)).

(** [x * 1000] *)
Definition times1000 (x : jsnumber) : jsnumber :=
  match x with
  | NaN => NaN
  | Infinite negative => Infinite negative
  | Finite n => roundToDouble (n * 1000)
  end.

(** ToBoolean of a number: NaN and zero are falsy. *)
Definition number_truthy (x : jsnumber) : bool :=
  match x with
  | NaN => false
  | Infinite _ => true
  | Finite z => negb (z =? 0)%Z
  end.

Record Env := {
  AUDIO_ENABLED : option string;
  VIDEO_ENABLED : option string;
  AUTO_ANSWER : option string;
  (** [parseInt(process.env.CALL_TIMEOUT)]; a finite value is an integer
      that is a double *)
  CALL_TIMEOUT : jsnumber
}.

(** [process.env.X === 'true'] *)
Definition is_true_string (v : option string) : bool :=
  match v with
  | Some s => String.eqb s "true"
  | None => false
  end.

(** [parseInt(process.env.CALL_TIMEOUT) * 1000 || 30000] *)
Definition callTimeoutMs (env : Env) : jsnumber :=
  if number_truthy (times1000 (CALL_TIMEOUT env))
  then times1000 (CALL_TIMEOUT env)
  else Finite 30000.

Record Config := {
  username : string;
  server : string;
  (** [undefined] is [None] *)
  domain : option string
}.

(** [this.config.domain || this.config.server] *)
Definition domainOrServer (cfg : Config) : string :=
  match domain cfg with
  | Some d => if String.eqb d "" then server cfg else d
  | None => server cfg
  end.

(** [target.startsWith('sip:') ? target : `sip:${target}@${...}`] *)
Definition targetUri (cfg : Config) (target : string) : string :=
  if String.prefix "sip:" target then target
  else "sip:" ++ target ++ "@" ++ domainOrServer cfg.

(** The constraints [connect] gives the user agent, from the process-wide
    media configuration. *)
Definition userAgentConstraints (env : Env) : Constraints :=
  {| audio := is_true_string (AUDIO_ENABLED env);
     video := if is_true_string (VIDEO_ENABLED env) then Some hdVideo else None |}.

(** ** Objects of the signalling library *)

(** A reference to a session object: its place in the heap. *)
Abbreviation ref := nat (only parsing).

(** What [instanceof Inviter] and [instanceof Invitation] tell apart; a
    [PlainObject] is neither. *)
Inductive SessionClass := Inviter | Invitation | PlainObject.

Definition is_Inviter (k : SessionClass) : bool :=
  match k with Inviter => true | _ => false end.

Definition is_Invitation (k : SessionClass) : bool :=
  match k with Invitation => true | _ => false end.

(** A session object: its class, its [state] property (a string of the
    library) and the session ids captured by the state-change listeners
    the client added to it, oldest first. *)
Record SessionObj := {
  cls : SessionClass;
  state : string;
  listeners : list string
}.

Global Instance SessionObj_inhabited : Inhabited SessionObj :=
  populate {| cls := PlainObject; state := ""; listeners := [] |}.

(** The user agent made by [connect]: the constraints it was given and
    what its [isRegistered()] answers. *)
Record UserAgent := {
  ua_constraints : Constraints;
  isRegistered : bool
}.

(** What the client asks of the library. *)
Inductive Command :=
| CmdStart
| CmdRegister
| CmdUnregister
| CmdStop
| CmdNewInviter (r : ref) (uri : string) (c : Constraints)
| CmdInvite (r : ref)
| CmdAccept (r : ref) (c : Constraints)
| CmdReject (r : ref)
| CmdCancel (r : ref)
| CmdBye (r : ref).

(** [this.emit(name, { id: sessionId, ...session })] *)
Inductive Event :=
| EvRegistered
| EvUnregistered
| EvInvite (sessionId : string) (session : ref)
| EvEstablished (sessionId : string) (session : ref)
| EvTerminated (sessionId : string) (session : ref).

(** The two closures given to [setTimeout], with what they capture. *)
Inductive TimerCallback :=
| CallTimeout (sessionId : string) (inviter : ref)
| AutoAnswer (sessionId : string) (invitation : ref).

Record Timer := {
  callback : TimerCallback;
  delay : jsnumber
}.

(** ** The client *)

Record SIPClient := {
  config : Config;
  userAgent : option UserAgent;
  activeSessions : list (string * ref);
  connected : bool;
  (** the library's session objects *)
  heap : list SessionObj;
  (** timers scheduled and not yet fired *)
  timers : list Timer;
  (** commands issued to the library, oldest first *)
  commands : list Command;
  (** events emitted to the subscribers, oldest first *)
  emitted : list Event
}.

(** [constructor(config)] *)
Definition constructor (cfg : Config) : SIPClient :=
  {| config := cfg; userAgent := None; activeSessions := []; connected := false;
     heap := []; timers := []; commands := []; emitted := [] |}.

Definition set_userAgent (ua : option UserAgent) (c : SIPClient) : SIPClient :=
  {| config := config c; userAgent := ua; activeSessions := activeSessions c;
     connected := connected c; heap := heap c; timers := timers c;
     commands := commands c; emitted := emitted c |}.

Definition set_activeSessions (m : list (string * ref)) (c : SIPClient) : SIPClient :=
  {| config := config c; userAgent := userAgent c; activeSessions := m;
     connected := connected c; heap := heap c; timers := timers c;
     commands := commands c; emitted := emitted c |}.

Definition set_connected (b : bool) (c : SIPClient) : SIPClient :=
  {| config := config c; userAgent := userAgent c; activeSessions := activeSessions c;
     connected := b; heap := heap c; timers := timers c;
     commands := commands c; emitted := emitted c |}.

Definition set_heap (h : list SessionObj) (c : SIPClient) : SIPClient :=
  {| config := config c; userAgent := userAgent c; activeSessions := activeSessions c;
     connected := connected c; heap := h; timers := timers c;
     commands := commands c; emitted := emitted c |}.

Definition set_timers (t : list Timer) (c : SIPClient) : SIPClient :=
  {| config := config c; userAgent := userAgent c; activeSessions := activeSessions c;
     connected := connected c; heap := heap c; timers := t;
     commands := commands c; emitted := emitted c |}.

Definition issue (ks : list Command) (c : SIPClient) : SIPClient :=
  {| config := config c; userAgent := userAgent c; activeSessions := activeSessions c;
     connected := connected c; heap := heap c; timers := timers c;
     commands := commands c ++ ks; emitted := emitted c |}.

Definition emit (e : Event) (c : SIPClient) : SIPClient :=
  {| config := config c; userAgent := userAgent c; activeSessions := activeSessions c;
     connected := connected c; heap := heap c; timers := timers c;
     commands := commands c; emitted := emitted c ++ [e] |}.

(** [setTimeout(callback, delay)] *)
Definition setTimeout (cb : TimerCallback) (ms : jsnumber) (c : SIPClient) : SIPClient :=
  set_timers (timers c ++ [{| callback := cb; delay := ms |}]) c.

(** [session.state] *)
Definition stateOf (c : SIPClient) (r : ref) : string := state (heap c !!! r).

(** The class of the object behind a reference. *)
Definition classOf (c : SIPClient) (r : ref) : SessionClass := cls (heap c !!! r).

(** A call either returns a value or throws; both leave a client behind. *)
Inductive Result (A : Type) :=
| Returned (a : A) (c : SIPClient)
| Thrown (e : JSError) (c : SIPClient).
Arguments Returned {A} a c.
Arguments Thrown {A} e c.

Definition clientOf {A} (r : Result A) : SIPClient :=
  match r with
  | Returned _ c => c
  | Thrown _ c => c
  end.

(** ** Connection and registration *)

(** [connect()]: builds the user agent, installs the delegate and the
    listener on the agent's state, and starts the agent. *)
Definition connect (env : Env) (c : SIPClient) : SIPClient :=
  issue [CmdStart]
    (set_userAgent
       (Some {| ua_constraints := userAgentConstraints env; isRegistered := false |}) c).

(** [delegate.onConnect] *)
Definition onConnect (c : SIPClient) : SIPClient := set_connected true c.

(** [delegate.onDisconnect]: the transport dropped. *)
Definition onDisconnect (c : SIPClient) : SIPClient :=
  emit EvUnregistered (set_connected false c).

(** [register()], up to its [await]. *)
Definition register (c : SIPClient) : SIPClient := issue [CmdRegister] c.

(** [register()], after its [await]: the promise resolved or rejected. *)
Definition registerSettled (ok : bool) (c : SIPClient) : SIPClient :=
  emit (if ok then EvRegistered else EvUnregistered) c.

(** [isConnected()]: [this.connected && this.userAgent?.isRegistered()] *)
Definition isConnected (c : SIPClient) : jsval :=
  if connected c then
    match userAgent c with
    | Some ua => JBool (isRegistered ua)
    | None => JUndefined
    end
  else JBool false.

(** ** Session identifiers *)

(** [generateSessionId()]: [Math.random().toString(36).substr(2, 9)].  The
    argument is the base-36 rendering of the random number. *)
Definition generateSessionId (rnd36 : string) : string := String.substring 2 9 rnd36.

(** ** State-change listeners *)

(** The listener [makeCall] and [handleIncomingCall] add to a session,
    with the session id it captured. *)
Definition listener (sessionId : string) (session : ref) (newState : string)
    (c : SIPClient) : SIPClient :=
  if String.eqb newState "Established" then
    emit (EvEstablished sessionId session) c
  else if String.eqb newState "Terminated" then
    emit (EvTerminated sessionId session)
      (set_activeSessions (JSMap.delete sessionId (activeSessions c)) c)
  else c.

Definition set_state (newState : string) (o : SessionObj) : SessionObj :=
  {| cls := cls o; state := newState; listeners := listeners o |}.

Definition add_listener (sessionId : string) (o : SessionObj) : SessionObj :=
  {| cls := cls o; state := state o; listeners := listeners o ++ [sessionId] |}.

(** The library moves a session to [newState] and calls its listeners. *)
Definition stateChange (r : ref) (newState : string) (c : SIPClient) : SIPClient :=
  let o := heap c !!! r in
  foldl (fun acc sid => listener sid r newState acc)
        (set_heap (<[r := set_state newState o]> (heap c)) c)
        (listeners o).

(** ** Commands *)

(** [setupMediaHandlers(session, sessionId)]: adds a 'track' and an
    'iceconnectionstatechange' listener to the session's peer connection.
    The call itself changes nothing the client holds; what the listeners do
    later (a log line, a [remoteStream] event) is not followed here. *)
Definition setupMediaHandlers (session : ref) (sessionId : string)
    (c : SIPClient) : SIPClient := c.

(** [makeCall(target, options = {})].  The library's sessions start in
    their "Initial" state. *)
Definition makeCall (env : Env) (rnd36 : string) (target : string)
    (options : option CallOptions) (c : SIPClient) : Result string :=
  if negb (truthy (isConnected c)) then Thrown NotRegistered c
  else
    let uri := targetUri (config c) target in
    let inviter := length (heap c) in
    let sessionId := generateSessionId rnd36 in
    let c1 := issue [CmdNewInviter inviter uri (constraintsOf (orDefault options))]
                (set_heap (heap c ++ [{| cls := Inviter; state := "Initial";
                                         listeners := [sessionId] |}]) c) in
    let c2 := set_activeSessions (JSMap.set sessionId inviter (activeSessions c1)) c1 in
    let c3 := issue [CmdInvite inviter] (setupMediaHandlers inviter sessionId c2) in
    Returned sessionId (setTimeout (CallTimeout sessionId inviter) (callTimeoutMs env) c3).

(** The handler of a rejected [inviter.invite()]. *)
Definition inviteRejected (r : ref) (c : SIPClient) : SIPClient :=
  if is_Inviter (classOf c r) then
    foldl (fun acc sid => set_activeSessions (JSMap.delete sid (activeSessions acc)) acc)
          c (listeners (heap c !!! r))
  else c.

(** [answerCall(sessionId, options = {})] *)
Definition answerCall (sessionId : string) (options : option CallOptions)
    (c : SIPClient) : Result unit :=
  match JSMap.get sessionId (activeSessions c) with
  | None => Thrown InvalidSession c
  | Some session =>
      if negb (is_Invitation (classOf c session)) then Thrown InvalidSession c
      else Returned tt (issue [CmdAccept session (constraintsOf (orDefault options))] c)
  end.

(** [hangupCall(sessionId)] *)
Definition hangupCall (sessionId : string) (c : SIPClient) : Result unit :=
  match JSMap.get sessionId (activeSessions c) with
  | None => Thrown SessionNotFound c
  | Some session =>
      if is_Inviter (classOf c session) then
        if String.eqb (stateOf c session) "Initial"
           || String.eqb (stateOf c session) "Establishing"
        then Returned tt (issue [CmdCancel session] c)
        else Returned tt (issue [CmdBye session] c)
      else if is_Invitation (classOf c session) then
        if String.eqb (stateOf c session) "Initial"
        then Returned tt (issue [CmdReject session] c)
        else Returned tt (issue [CmdBye session] c)
      else Returned tt c
  end.

(** [handleIncomingCall(invitation)] *)
Definition handleIncomingCall (env : Env) (rnd36 : string) (invitation : ref)
    (c : SIPClient) : SIPClient :=
  let sessionId := generateSessionId rnd36 in
  let c1 := set_activeSessions (JSMap.set sessionId invitation (activeSessions c)) c in
  let c2 := set_heap (<[invitation := add_listener sessionId (heap c1 !!! invitation)]>
                        (heap c1)) c1 in
  let c3 := emit (EvInvite sessionId invitation)
              (setupMediaHandlers invitation sessionId c2) in
  if is_true_string (AUTO_ANSWER env)
  then setTimeout (AutoAnswer sessionId invitation) (Finite 1000) c3
  else c3.

(** [delegate.onInvite]: the library made a new invitation. *)
Definition onInvite (env : Env) (rnd36 : string) (c : SIPClient) : SIPClient :=
  handleIncomingCall env rnd36 (length (heap c))
    (set_heap (heap c ++ [{| cls := Invitation; state := "Initial"; listeners := [] |}]) c).

(** The loop of [disconnect()]: hang up every registered session, errors
    logged and dropped. *)
Definition hangupAll (c : SIPClient) : SIPClient :=
  foldl (fun acc entry => clientOf (hangupCall entry.1 acc)) c (activeSessions c).

(** [disconnect()].  [unregistered] says how the awaited
    [userAgent.unregister()] settled: [stop()] is called only when it
    resolved, a rejection goes straight to the [catch].  How [stop()]
    settles makes no difference to what follows. *)
Definition disconnect (unregistered : bool) (c : SIPClient) : SIPClient :=
  let c1 := hangupAll c in
  let c2 := match userAgent c1 with
            | Some _ =>
                issue (CmdUnregister :: if unregistered then [CmdStop] else []) c1
            | None => c1
            end in
  set_connected false c2.

(** ** Timers *)

(** The body of a timer's callback. *)
Definition runTimer (cb : TimerCallback) (c : SIPClient) : Result unit :=
  match cb with
  | CallTimeout sessionId inviter =>
      if JSMap.has sessionId (activeSessions c)
         && negb (String.eqb (stateOf c inviter) "Established")
      then Returned tt (issue [CmdCancel inviter] c)
      else Returned tt c
  | AutoAnswer sessionId invitation =>
      if String.eqb (stateOf c invitation) "Initial"
      then answerCall sessionId None c
      else Returned tt c
  end.

(** The [i]-th pending timer fires: it leaves the pending timers (a timer
    fires once) and its callback runs. *)
Definition fire (i : nat) (c : SIPClient) : Result unit :=
  match timers c !! i with
  | Some t => runTimer (callback t) (set_timers (delete i (timers c)) c)
  | None => Returned tt c
  end.

(** ** Runs of the client *)

(** What can happen to a client: a command of its user, or an event of the
    library or of the clock. *)
Inductive Action :=
| Connect
| UaStarted
| RegisterSettled (ok : bool)
| SetRegistered (b : bool)
| OnConnect
| OnDisconnect
| OnInvite (rnd36 : string)
| StateChange (r : ref) (newState : string)
| InviteRejected (r : ref)
| Fire (i : nat)
| MakeCall (rnd36 target : string) (options : option CallOptions)
| AnswerCall (sessionId : string) (options : option CallOptions)
| HangupCall (sessionId : string)
| Disconnect (unregistered : bool).

(** Events of the library reach the client only through the handlers
    [connect] installed, so they need a user agent. *)
Definition withUserAgent (f : SIPClient -> SIPClient) (c : SIPClient) : SIPClient :=
  match userAgent c with
  | Some _ => f c
  | None => c
  end.

Definition setRegistered (b : bool) (c : SIPClient) : SIPClient :=
  match userAgent c with
  | Some ua => set_userAgent (Some {| ua_constraints := ua_constraints ua;
                                      isRegistered := b |}) c
  | None => c
  end.

Definition apply (env : Env) (a : Action) (c : SIPClient) : SIPClient :=
  match a with
  | Connect => connect env c
  | UaStarted => withUserAgent register c
  | RegisterSettled ok => withUserAgent (registerSettled ok) c
  | SetRegistered b => setRegistered b c
  | OnConnect => withUserAgent onConnect c
  | OnDisconnect => withUserAgent onDisconnect c
  | OnInvite rnd36 => withUserAgent (onInvite env rnd36) c
  | StateChange r newState => stateChange r newState c
  | InviteRejected r => inviteRejected r c
  | Fire i => clientOf (fire i c)
  | MakeCall rnd36 target options => clientOf (makeCall env rnd36 target options c)
  | AnswerCall sessionId options => clientOf (answerCall sessionId options c)
  | HangupCall sessionId => clientOf (hangupCall sessionId c)
  | Disconnect unregistered => disconnect unregistered c
  end.

Definition run (env : Env) (trace : list Action) (c : SIPClient) : SIPClient :=
  foldl (fun acc a => apply env a acc) c trace.

(** ** What the spec calls things *)

(** The Registration Manager is in its Registered state: the transport is
    connected and the user agent says it is registered. *)
Definition Registered (c : SIPClient) : Prop :=
  connected c = true /\ exists ua, userAgent c = Some ua /\ isRegistered ua = true.

(** Both media requested, with the client's fixed video format. *)
Definition audioAndVideo : Constraints := {| audio := true; video := Some hdVideo |}.

(** ** Relations between clients *)

(** Only the command log separates [c'] from [c]. *)
Definition only_commands (c c' : SIPClient) : Prop :=
  config c' = config c /\ userAgent c' = userAgent c /\
  activeSessions c' = activeSessions c /\ connected c' = connected c /\
  heap c' = heap c /\ timers c' = timers c /\ emitted c' = emitted c.

(** The registry never holds an identifier twice, and the connected flag
    is only ever up when there is a user agent. *)
Definition well_formed (c : SIPClient) : Prop :=
  NoDup (JSMap.keys (activeSessions c)) /\
  (userAgent c = None -> connected c = false).

(** ** Conditions on what happens in between *)







(** ** Concrete clients *)

Definition exampleConfig : Config :=
  {| username := "door"; server := "pbx.local"; domain := None |}.

(** Media switched off process-wide, auto-answer on, a 5 second ring
    timeout. *)
Definition exampleEnv : Env :=
  {| AUDIO_ENABLED := Some "false"; VIDEO_ENABLED := Some "false";
     AUTO_ANSWER := Some "true"; CALL_TIMEOUT := Finite 5 |}.

(** Connected and registered, no session yet. *)
Definition registeredClient : SIPClient :=
  run exampleEnv [Connect; OnConnect; SetRegistered true] (constructor exampleConfig).

(** An inbound call is ringing under the id "abc"; its auto-answer timer is
    pending. *)
Definition ringingClient : SIPClient :=
  apply exampleEnv (OnInvite "0.abc") registeredClient.

(** The inbound call was answered by hand and the library has started to
    establish it. *)
Definition acceptingClient : SIPClient :=
  run exampleEnv [AnswerCall "abc" None; StateChange 0 "Establishing"] ringingClient.

(** The inbound call is established. *)
Definition establishedClient : SIPClient :=
  apply exampleEnv (StateChange 0 "Established") acceptingClient.

(** An outbound call to bob is in progress under the id "4fzyo82mv". *)
Definition callingClient : SIPClient :=
  apply exampleEnv (MakeCall "0.4fzyo82mvyr" "bob" None) registeredClient.

(** ** The service's HTTP routes (src/index.js)

    The three SIP endpoints of [SIPWebRTCService.setupExpress] and the
    connected flag it reports.  A request is what the handler reads from
    it: the fields of the JSON body, [undefined] when absent, and the
    session id of the path. *)

(** The body of a response, as the handlers build it. *)
Inductive Body :=
| BodyCalling (sessionId : string)   (* { sessionId, status: 'calling' } *)
| BodyAnswered                       (* { status: 'answered' } *)
| BodyHangup                         (* { status: 'hangup' } *)
| BodyError (message : string).      (* { error: message } *)

(** [res.status(n).json(body)]; [res.json(body)] answers 200. *)
Record Response := {
  status : nat;
  body : Body
}.

(** [error.message] *)
Definition messageOf (e : JSError) : string :=
  match e with MkError message => message end.

(** The default of [const { video = true, audio = true } = req.body]: it
    applies to [undefined] only. *)
Definition orTrue (v : jsval) : jsval :=
  match v with
  | JUndefined => JBool true
  | _ => v
  end.

(** [makeCall] on whatever the body held as [target]: after the guard, a
    value that is not a string has no [startsWith], and calling it throws
    the engine's TypeError. *)
Definition makeCallValue (env : Env) (rnd36 : string) (target : jsval)
    (options : option CallOptions) (c : SIPClient) : Result string :=
  match target with
  | JStr s => makeCall env rnd36 s options c
  | _ =>
      if negb (truthy (isConnected c)) then Thrown NotRegistered c
      else Thrown (MkError "target.startsWith is not a function") c
  end.

(** [POST /api/call] *)
Definition postCall (env : Env) (rnd36 : string) (target video audio : jsval)
    (c : SIPClient) : Response * SIPClient :=
  if negb (truthy target) then
    ({| status := 400; body := BodyError "Target is required" |}, c)
  else
    match makeCallValue env rnd36 target
            (Some {| opt_audio := orTrue audio; opt_video := orTrue video |}) c with
    | Returned sessionId c' => ({| status := 200; body := BodyCalling sessionId |}, c')
    | Thrown e c' => ({| status := 500; body := BodyError (messageOf e) |}, c')
    end.

(** [POST /api/answer/:sessionId] *)
Definition postAnswer (sessionId : string) (video audio : jsval)
    (c : SIPClient) : Response * SIPClient :=
  match answerCall sessionId
          (Some {| opt_audio := orTrue audio; opt_video := orTrue video |}) c with
  | Returned _ c' => ({| status := 200; body := BodyAnswered |}, c')
  | Thrown e c' => ({| status := 500; body := BodyError (messageOf e) |}, c')
  end.

(** [POST /api/hangup/:sessionId] *)
Definition postHangup (sessionId : string) (c : SIPClient) : Response * SIPClient :=
  match hangupCall sessionId c with
  | Returned _ c' => ({| status := 200; body := BodyHangup |}, c')
  | Thrown e c' => ({| status := 500; body := BodyError (messageOf e) |}, c')
  end.

(** [this.sipClient?.isConnected() || false], what [/health] and the
    WebSocket status messages report; [None] is a service whose client is
    not made yet. *)
Definition reportedConnected (client : option SIPClient) : jsval :=
  match client with
  | Some c => if truthy (isConnected c) then isConnected c else JBool false
  | None => JBool false
  end.

(** ** Who a command, a timer and a registry entry refer to *)

(** In [disconnect]'s loop: what [hangupCall(sessionId)] issues on [c]. *)
Definition hangupCommands (c : SIPClient) (sessionId : string) : list Command :=
  drop (length (commands c)) (commands (clientOf (hangupCall sessionId c))).

(** The command goes to an object of the class the library has the
    method on: [invite] and [cancel] are an Inviter's, [accept] and
    [reject] an Invitation's, [bye] is a method of both. *)
Definition command_ok (h : list SessionObj) (k : Command) : Prop :=
  match k with
  | CmdNewInviter r _ _ | CmdInvite r | CmdCancel r => cls (h !!! r) = Inviter
  | CmdAccept r _ | CmdReject r => cls (h !!! r) = Invitation
  | CmdBye r => cls (h !!! r) <> PlainObject
  | _ => True
  end.

(** The timer was scheduled as the code schedules it: a ring timeout for
    an Inviter, with the configured delay; an auto-answer for an
    Invitation, a second ahead, and only when auto-answer is on. *)
Definition timer_ok (env : Env) (h : list SessionObj) (t : Timer) : Prop :=
  match callback t with
  | CallTimeout _ r => cls (h !!! r) = Inviter /\ delay t = callTimeoutMs env
  | AutoAnswer _ r =>
      cls (h !!! r) = Invitation /\ delay t = Finite 1000 /\
      is_true_string (AUTO_ANSWER env) = true
  end.

(** The registry entry leads to a session with a direction, whose
    listener captured the entry's id. *)
Definition entry_ok (h : list SessionObj) (e : string * ref) : Prop :=
  cls (h !!! e.2) <> PlainObject /\ e.1 ∈ listeners (h !!! e.2).

(** Every session object has the one listener its creation gave it. *)
Definition object_ok (o : SessionObj) : Prop :=
  cls o <> PlainObject /\ length (listeners o) = 1.

Definition coherent (env : Env) (d : SIPClient) : Prop :=
  Forall object_ok (heap d) /\
  Forall (command_ok (heap d)) (commands d) /\
  Forall (timer_ok env (heap d)) (timers d) /\
  Forall (entry_ok (heap d)) (activeSessions d).

(** The events one state change makes one listener emit. *)
Definition eventsOf (sessionId : string) (session : ref) (newState : string)
    : list Event :=
  if String.eqb newState "Established" then [EvEstablished sessionId session]
  else if String.eqb newState "Terminated" then [EvTerminated sessionId session]
  else [].

(** The actions that are about the connection and the registration:
    [connect] and [disconnect], the transport's two delegate calls,
    [register()] and how it settles, and the library changing what
    [isRegistered()] answers. *)
Definition about_connection (a : Action) : bool :=
  match a with
  | Connect | UaStarted | RegisterSettled _ | SetRegistered _
  | OnConnect | OnDisconnect | Disconnect _ => true
  | _ => false
  end.

(** * Facts *)

(** ** The [Map] operations *)

Module JSMapFacts.
Import JSMap.

Section Facts.
Context {V : Type}.
Implicit Types (k : string) (v : V) (m : list (string * V)).

Lemma get_set_eq k v m : get k (set k v m) = Some v.
Proof.
  induction m as [|[k' v'] m IH]; simpl.
  - by rewrite String.eqb_refl.
  - destruct (String.eqb_spec k k') as [->|Hne]; simpl.
    + by rewrite String.eqb_refl.
    + destruct (String.eqb_spec k k'); [done | apply IH].
Qed.

Lemma get_set_ne k k' v m : k <> k' -> get k' (set k v m) = get k' m.
Proof.
  intros Hne. induction m as [|[k0 v0] m IH]; simpl.
  - destruct (String.eqb_spec k' k); [by subst | done].
  - destruct (String.eqb_spec k k0) as [->|Hk]; simpl.
    + destruct (String.eqb_spec k' k0); [by subst | done].
    + destruct (String.eqb_spec k' k0); [done | apply IH].
Qed.

Lemma get_delete_eq k m : get k (delete k m) = None.
Proof.
  induction m as [|[k' v'] m IH]; simpl; [done |].
  destruct (String.eqb_spec k k') as [->|Hne]; simpl; [done |].
  destruct (String.eqb_spec k k'); [done | apply IH].
Qed.

Lemma get_delete_ne k k' m : k <> k' -> get k' (delete k m) = get k' m.
Proof.
  intros Hne. induction m as [|[k0 v0] m IH]; simpl; [done |].
  destruct (String.eqb_spec k k0) as [->|Hk]; simpl.
  - destruct (String.eqb_spec k' k0); [by subst | apply IH].
  - destruct (String.eqb_spec k' k0); [done | apply IH].
Qed.

(** A key that was absent stays absent when another is deleted. *)
Lemma get_delete_None k k' m : get k' m = None -> get k' (delete k m) = None.
Proof.
  intros H. destruct (decide (k = k')) as [->|Hne].
  - apply get_delete_eq.
  - by rewrite get_delete_ne.
Qed.

Lemma get_None_keys k m : get k m = None <-> k ∉ keys m.
Proof.
  unfold keys. induction m as [|[k' v'] m IH]; simpl.
  - split; [intros _; apply not_elem_of_nil | done].
  - rewrite not_elem_of_cons.
    destruct (String.eqb_spec k k') as [->|Hne].
    * split; [done | intros []; congruence].
    * rewrite IH. split; [by intros ? | by intros [_ ?]].
Qed.



(** [set] with a new key appends the entry. *)
Lemma set_fresh k v m : get k m = None -> set k v m = m ++ [(k, v)].
Proof.
  induction m as [|[k' v'] m IH]; simpl; [done |].
  destruct (String.eqb_spec k k'); [done |].
  intros H. by rewrite IH.
Qed.

(** [set] with a key already there leaves the keys as they are. *)
Lemma keys_set_present k v m : get k m <> None -> keys (set k v m) = keys m.
Proof.
  unfold keys. induction m as [|[k' v'] m IH]; cbn; [done |].
  destruct (String.eqb_spec k k') as [->|Hne]; cbn; [done |].
  intros H. f_equal. by apply IH.
Qed.

Lemma keys_set_fresh k v m : get k m = None -> keys (set k v m) = keys m ++ [k].
Proof. intros H. rewrite set_fresh by done. unfold keys. by rewrite fmap_app. Qed.

Lemma NoDup_keys_set k v m : NoDup (keys m) -> NoDup (keys (set k v m)).
Proof.
  intros Hnd. destruct (get k m) as [v0|] eqn:Hget.
  - rewrite keys_set_present; [done | congruence].
  - rewrite keys_set_fresh by done.
    apply NoDup_app. split; [done |]. split.
    + intros x Hx Hx'. apply list_elem_of_singleton in Hx'. subst x.
      by apply get_None_keys in Hget.
    + apply NoDup_singleton.
Qed.

Lemma keys_delete_subseteq k m : keys (delete k m) ⊆ keys m.
Proof.
  unfold keys. induction m as [|[k' v'] m IH]; simpl; [done |].
  destruct (String.eqb k k'); cbn; intros x Hx.
  - apply elem_of_cons. right. by apply IH.
  - apply elem_of_cons in Hx as [->|Hx]; apply elem_of_cons; [by left |].
    right. by apply IH.
Qed.

Lemma NoDup_keys_delete k m : NoDup (keys m) -> NoDup (keys (delete k m)).
Proof.
  unfold keys. induction m as [|[k' v'] m IH]; cbn; [done |].
  rewrite NoDup_cons. intros [Hnotin Hnd].
  destruct (String.eqb k k'); cbn; [by apply IH |].
  apply NoDup_cons. split; [| by apply IH].
  intros Hin. apply Hnotin. by apply (keys_delete_subseteq k m).
Qed.
End Facts.
End JSMapFacts.

(** ** What the operations leave alone *)

(** A property kept by every round of a loop is kept by the loop. *)
Lemma foldl_preserves {A} (P : SIPClient -> Prop) (f : SIPClient -> A -> SIPClient)
    (l : list A) :
  (forall x c, P c -> P (f c x)) -> forall c, P c -> P (foldl f c l).
Proof.
  intros Hf. induction l as [|x l IH]; simpl; [done |].
  intros c Hc. apply IH, Hf, Hc.
Qed.

Lemma only_commands_refl c : only_commands c c.
Proof. by repeat split. Qed.

Lemma only_commands_issue ks c : only_commands c (issue ks c).
Proof. by repeat split. Qed.

Lemma only_commands_trans c1 c2 c3 :
  only_commands c1 c2 -> only_commands c2 c3 -> only_commands c1 c3.
Proof.
  unfold only_commands. intros (?&?&?&?&?&?&?) (?&?&?&?&?&?&?).
  repeat split; congruence.
Qed.

Create HintDb client.
#[local] Hint Resolve only_commands_refl only_commands_issue : client.

Lemma answerCall_only_commands sid opts c :
  only_commands c (clientOf (answerCall sid opts c)).
Proof.
  unfold answerCall. destruct (JSMap.get sid (activeSessions c)); simpl;
    [destruct (negb _) |]; simpl; auto with client.
Qed.

Lemma hangupCall_only_commands sid c :
  only_commands c (clientOf (hangupCall sid c)).
Proof.
  unfold hangupCall. destruct (JSMap.get sid (activeSessions c)) as [r|]; simpl;
    [| auto with client].
  destruct (is_Inviter _); [destruct (_ || _) |
    destruct (is_Invitation _); [destruct (String.eqb _ _) |]];
    simpl; auto with client.
Qed.

Lemma runTimer_only_commands cb c : only_commands c (clientOf (runTimer cb c)).
Proof.
  destruct cb as [sid r|sid r]; simpl.
  - destruct (_ && _); simpl; auto with client.
  - destruct (String.eqb _ _); [apply answerCall_only_commands | simpl; auto with client].
Qed.

Lemma hangupAll_only_commands c : only_commands c (hangupAll c).
Proof.
  unfold hangupAll.
  apply (foldl_preserves (only_commands c)); [| apply only_commands_refl].
  intros entry c' Hc'. eapply only_commands_trans; [exact Hc' |].
  apply hangupCall_only_commands.
Qed.

(** ** Two invariants of every run

    [well_formed] holds of the new client and every action keeps it: the
    connected flag is only ever raised through a handler that [connect]
    installed. *)

Lemma well_formed_only_commands c c' :
  only_commands c c' -> well_formed c -> well_formed c'.
Proof.
  intros (_&Hua&Hs&Hc&_) [Hnd Hconn]. split.
  - by rewrite Hs.
  - rewrite Hua, Hc. exact Hconn.
Qed.

Lemma well_formed_constructor cfg : well_formed (constructor cfg).
Proof. split; [apply NoDup_nil_2 | done]. Qed.

Lemma well_formed_set_heap h c : well_formed c -> well_formed (set_heap h c).
Proof. by intros []. Qed.

Lemma well_formed_set_timers t c : well_formed c -> well_formed (set_timers t c).
Proof. by intros []. Qed.

Lemma well_formed_emit e c : well_formed c -> well_formed (emit e c).
Proof. by intros []. Qed.

Lemma well_formed_set k r c :
  well_formed c -> well_formed (set_activeSessions (JSMap.set k r (activeSessions c)) c).
Proof. intros [Hnd Hconn]. split; [by apply JSMapFacts.NoDup_keys_set | done]. Qed.

Lemma well_formed_delete k c :
  well_formed c -> well_formed (set_activeSessions (JSMap.delete k (activeSessions c)) c).
Proof. intros [Hnd Hconn]. split; [by apply JSMapFacts.NoDup_keys_delete | done]. Qed.

#[local] Hint Resolve well_formed_set_heap well_formed_set_timers well_formed_emit
  well_formed_set well_formed_delete : client.

Lemma well_formed_listener sid r newState c :
  well_formed c -> well_formed (listener sid r newState c).
Proof.
  intros Hc. unfold listener.
  destruct (String.eqb newState "Established"); [auto with client |].
  destruct (String.eqb newState "Terminated"); auto with client.
Qed.

Lemma well_formed_stateChange r newState c :
  well_formed c -> well_formed (stateChange r newState c).
Proof.
  intros Hc. unfold stateChange.
  apply (foldl_preserves well_formed); [| auto with client].
  intros sid c' Hc'. by apply well_formed_listener.
Qed.

Lemma well_formed_inviteRejected r c :
  well_formed c -> well_formed (inviteRejected r c).
Proof.
  intros Hc. unfold inviteRejected. destruct (is_Inviter _); [| done].
  apply (foldl_preserves well_formed); [| done].
  intros sid c' Hc'. by apply well_formed_delete.
Qed.

Lemma well_formed_handleIncomingCall env rnd36 r c :
  well_formed c -> well_formed (handleIncomingCall env rnd36 r c).
Proof.
  intros Hc. unfold handleIncomingCall, setupMediaHandlers, setTimeout.
  destruct (is_true_string _); auto 10 with client.
Qed.

Lemma well_formed_makeCall env rnd36 target opts c :
  well_formed c -> well_formed (clientOf (makeCall env rnd36 target opts c)).
Proof.
  intros Hc. unfold makeCall. destruct (negb _); simpl; [done |].
  destruct Hc as [Hnd Hconn]. split; simpl; [| done].
  by apply JSMapFacts.NoDup_keys_set.
Qed.

Lemma well_formed_fire i c : well_formed c -> well_formed (clientOf (fire i c)).
Proof.
  intros Hc. unfold fire. destruct (timers c !! i) as [t|]; simpl; [| done].
  eapply well_formed_only_commands; [apply runTimer_only_commands |].
  by apply well_formed_set_timers.
Qed.

Lemma well_formed_disconnect u c : well_formed c -> well_formed (disconnect u c).
Proof.
  intros Hc. unfold disconnect.
  assert (well_formed (hangupAll c)) as [Hnd _]
    by (eapply well_formed_only_commands; [apply hangupAll_only_commands | done]).
  destruct (userAgent (hangupAll c)); by split.
Qed.

Lemma well_formed_apply env a c : well_formed c -> well_formed (apply env a c).
Proof.
  intros Hc. destruct a; simpl.
  - destruct Hc. by split.
  - unfold withUserAgent. destruct (userAgent c); [| done]. by destruct Hc.
  - unfold withUserAgent. destruct (userAgent c); [| done]. by apply well_formed_emit.
  - unfold setRegistered. destruct (userAgent c); [| done]. destruct Hc. by split.
  - unfold withUserAgent. destruct (userAgent c) eqn:Hua; [| done].
    destruct Hc. split; [done |]. simpl. congruence.
  - unfold withUserAgent. destruct (userAgent c); [| done]. destruct Hc. by split.
  - unfold withUserAgent. destruct (userAgent c); [| done].
    by apply well_formed_handleIncomingCall, well_formed_set_heap.
  - by apply well_formed_stateChange.
  - by apply well_formed_inviteRejected.
  - by apply well_formed_fire.
  - by apply well_formed_makeCall.
  - eapply well_formed_only_commands; [apply answerCall_only_commands | done].
  - eapply well_formed_only_commands; [apply hangupCall_only_commands | done].
  - by apply well_formed_disconnect.
Qed.

Lemma well_formed_run env trace cfg : well_formed (run env trace (constructor cfg)).
Proof.
  unfold run. apply (foldl_preserves well_formed).
  - intros a c. apply well_formed_apply.
  - apply well_formed_constructor.
Qed.

(** ** Answering *)

Section Answer.
Variables (sid : string) (opts : option CallOptions) (c : SIPClient).

Lemma answerCall_invitation r :
  JSMap.get sid (activeSessions c) = Some r -> classOf c r = Invitation ->
  answerCall sid opts c
    = Returned tt (issue [CmdAccept r (constraintsOf (orDefault opts))] c).
Proof. intros Hget Hcls. unfold answerCall. by rewrite Hget, Hcls. Qed.

Lemma answerCall_not_invitation r :
  JSMap.get sid (activeSessions c) = Some r -> classOf c r <> Invitation ->
  answerCall sid opts c = Thrown InvalidSession c.
Proof.
  intros Hget Hcls. unfold answerCall. rewrite Hget.
  by destruct (classOf c r).
Qed.

Lemma answerCall_unknown :
  JSMap.get sid (activeSessions c) = None ->
  answerCall sid opts c = Thrown InvalidSession c.
Proof. intros Hget. unfold answerCall. by rewrite Hget. Qed.
End Answer.

(** C1, as the spec has it, fails: an inbound session that is already
    Established is accepted again.  [answerCall] returns normally, the
    accept goes to the library, and the pending auto-answer timer is still
    pending afterwards. *)
Lemma answerCall_accepts_established_session :
  JSMap.get "abc" (activeSessions establishedClient) = Some 0 /\
  classOf establishedClient 0 = Invitation /\
  stateOf establishedClient 0 = "Established" /\
  answerCall "abc" None establishedClient
    = Returned tt (issue [CmdAccept 0 audioAndVideo] establishedClient) /\
  timers (issue [CmdAccept 0 audioAndVideo] establishedClient)
    = [{| callback := AutoAnswer "abc" 0; delay := Finite 1000 |}].
Proof. repeat split. Qed.

(** C1, amended: [answerCall] issues the accept exactly when the id is
    registered to an inbound session (an Invitation), in whatever state
    that session is; for an unknown id and for an outbound session alike
    it throws the one error "Invalid session or session not found"; and it
    never touches a timer or the registry. *)
Theorem answerCall_accepts_registered_invitation sid opts c :
  (forall r, JSMap.get sid (activeSessions c) = Some r -> classOf c r = Invitation ->
     answerCall sid opts c
       = Returned tt (issue [CmdAccept r (constraintsOf (orDefault opts))] c)) /\
  (forall r, JSMap.get sid (activeSessions c) = Some r -> classOf c r <> Invitation ->
     answerCall sid opts c = Thrown InvalidSession c) /\
  (JSMap.get sid (activeSessions c) = None ->
     answerCall sid opts c = Thrown InvalidSession c) /\
  timers (clientOf (answerCall sid opts c)) = timers c /\
  activeSessions (clientOf (answerCall sid opts c)) = activeSessions c.
Proof.
  split; [apply answerCall_invitation |].
  split; [apply answerCall_not_invitation |].
  split; [apply answerCall_unknown |].
  destruct (answerCall_only_commands sid opts c) as (_&_&Hs&_&_&Ht&_). by split.
Qed.

Lemma answerCall_accepts_registered_invitation_witness :
  answerCall "abc" (Some {| opt_audio := JBool true; opt_video := JBool false |})
             ringingClient
    = Returned tt (issue [CmdAccept 0 {| audio := true; video := None |}] ringingClient).
Proof.
  apply (proj1 (answerCall_accepts_registered_invitation "abc"
                  (Some {| opt_audio := JBool true; opt_video := JBool false |})
                  ringingClient) 0); reflexivity.
Defined.

(** ** The transport drops *)

Lemma get_set_not_None (k k' : string) (r : ref) (m : list (string * ref)) :
  JSMap.get k' m <> None -> JSMap.get k' (JSMap.set k r m) <> None.
Proof.
  intros H. destruct (decide (k = k')) as [->|Hne].
  - by rewrite JSMapFacts.get_set_eq.
  - by rewrite JSMapFacts.get_set_ne.
Qed.

Lemma listener_keeps_sessions sid r newState c :
  newState <> "Terminated" ->
  activeSessions (listener sid r newState c) = activeSessions c.
Proof.
  intros Hne. unfold listener.
  destruct (String.eqb newState "Established"); [done |].
  by destruct (String.eqb_spec newState "Terminated").
Qed.

Lemma stateChange_keeps_sessions r newState c :
  newState <> "Terminated" ->
  activeSessions (stateChange r newState c) = activeSessions c.
Proof.
  intros Hne. unfold stateChange.
  apply (foldl_preserves (fun c' => activeSessions c' = activeSessions c)); [| done].
  intros sid c' <-. by apply listener_keeps_sessions.
Qed.

(** Whatever happens, short of a session's own move to Terminated and of a
    failed invite, a registered id stays registered. *)
Lemma registered_stays env a c sid :
  (forall r, a <> StateChange r "Terminated") ->
  (forall r, a <> InviteRejected r) ->
  JSMap.get sid (activeSessions c) <> None ->
  JSMap.get sid (activeSessions (apply env a c)) <> None.
Proof.
  intros Hsc Hir Hget.
  destruct a; simpl;
    try (unfold withUserAgent; destruct (userAgent c); [| done]); try done.
  - unfold setRegistered. by destruct (userAgent c).
  - unfold onInvite, handleIncomingCall, setTimeout.
    destruct (is_true_string _); simpl; by apply get_set_not_None.
  - rewrite stateChange_keeps_sessions; [done |]. intros ->. by apply (Hsc r).
  - by destruct (Hir r).
  - unfold fire. destruct (timers c !! i) as [t|]; simpl; [| done].
    by destruct (runTimer_only_commands (callback t)
                   (set_timers (delete i (timers c)) c)) as (_&_&->&_).
  - unfold makeCall. destruct (negb _); simpl; [done |]. by apply get_set_not_None.
  - by destruct (answerCall_only_commands sessionId options c) as (_&_&->&_).
  - by destruct (hangupCall_only_commands sessionId c) as (_&_&->&_).
  - unfold disconnect.
    destruct (hangupAll_only_commands c) as (_&_&Hs&_).
    destruct (userAgent (hangupAll c)); simpl; by rewrite Hs.
Qed.

(** C2, as the spec has it, fails: the transport drops while an inbound
    call is established, and afterwards the call is still registered and
    still Established; nothing was asked of the library. *)
Lemma onDisconnect_leaves_session_registered :
  activeSessions (apply exampleEnv OnDisconnect establishedClient) = [("abc", 0)] /\
  stateOf (apply exampleEnv OnDisconnect establishedClient) 0 = "Established" /\
  commands (apply exampleEnv OnDisconnect establishedClient) = commands establishedClient.
Proof. repeat split. Qed.

(** C2, amended: when the transport drops, the client clears its connected
    flag and emits exactly one lifecycle event, [unregistered]; the
    sessions in the registry are left registered and as they were, and
    nothing is asked of the library. *)
Theorem onDisconnect_keeps_sessions c :
  connected (onDisconnect c) = false /\
  emitted (onDisconnect c) = emitted c ++ [EvUnregistered] /\
  activeSessions (onDisconnect c) = activeSessions c /\
  heap (onDisconnect c) = heap c /\
  commands (onDisconnect c) = commands c /\
  timers (onDisconnect c) = timers c /\
  forall env sid, JSMap.get sid (activeSessions c) <> None ->
    JSMap.get sid (activeSessions (apply env OnDisconnect c)) <> None.
Proof.
  repeat split. intros env sid. by apply registered_stays.
Qed.

Lemma onDisconnect_keeps_sessions_witness :
  JSMap.get "abc" (activeSessions (apply exampleEnv OnDisconnect ringingClient)) <> None.
Proof.
  apply (proj2 (proj2 (proj2 (proj2 (proj2 (proj2
           (onDisconnect_keeps_sessions ringingClient))))))).
  discriminate.
Defined.

(** ** Hanging up *)

Section Hangup.
Variables (sid : string) (c : SIPClient) (r : ref).
Hypothesis Hget : JSMap.get sid (activeSessions c) = Some r.

Lemma hangupCall_outbound_cancel :
  classOf c r = Inviter ->
  stateOf c r = "Initial" \/ stateOf c r = "Establishing" ->
  hangupCall sid c = Returned tt (issue [CmdCancel r] c).
Proof.
  intros Hcls Hst. unfold hangupCall. rewrite Hget, Hcls. simpl.
  by destruct Hst as [->| ->].
Qed.

Lemma hangupCall_inbound_reject :
  classOf c r = Invitation -> stateOf c r = "Initial" ->
  hangupCall sid c = Returned tt (issue [CmdReject r] c).
Proof. intros Hcls Hst. unfold hangupCall. by rewrite Hget, Hcls, Hst. Qed.

Lemma hangupCall_established_bye :
  classOf c r <> PlainObject -> stateOf c r = "Established" ->
  hangupCall sid c = Returned tt (issue [CmdBye r] c).
Proof.
  intros Hcls Hst. unfold hangupCall. rewrite Hget, Hst.
  by destruct (classOf c r).
Qed.

(** The two [else] branches: every other state gets a bye. *)
Lemma hangupCall_outbound_else_bye :
  classOf c r = Inviter ->
  stateOf c r <> "Initial" -> stateOf c r <> "Establishing" ->
  hangupCall sid c = Returned tt (issue [CmdBye r] c).
Proof.
  intros Hcls Hst1 Hst2. unfold hangupCall. rewrite Hget, Hcls. simpl.
  destruct (String.eqb_spec (stateOf c r) "Initial"); [done |].
  by destruct (String.eqb_spec (stateOf c r) "Establishing").
Qed.

Lemma hangupCall_inbound_else_bye :
  classOf c r = Invitation -> stateOf c r <> "Initial" ->
  hangupCall sid c = Returned tt (issue [CmdBye r] c).
Proof.
  intros Hcls Hst. unfold hangupCall. rewrite Hget, Hcls. simpl.
  by destruct (String.eqb_spec (stateOf c r) "Initial").
Qed.

(** One primitive, and no more, goes to a session that has a direction. *)
Lemma hangupCall_one_primitive :
  classOf c r <> PlainObject ->
  exists k, (k = CmdCancel r \/ k = CmdReject r \/ k = CmdBye r) /\
            hangupCall sid c = Returned tt (issue [k] c).
Proof.
  intros Hcls. unfold hangupCall. rewrite Hget.
  destruct (classOf c r); simpl; [| | done].
  - destruct (_ || _); eexists; (split; [| reflexivity]); auto.
  - destruct (String.eqb _ _); eexists; (split; [| reflexivity]); auto.
Qed.
End Hangup.

(** C3 at the input where the code departs from it: an inbound call was
    answered, the library is still establishing it (no [established] was
    ever emitted for it), and [hangupCall] sends it a bye. *)
Theorem hangupCall_sends_bye_to_unestablished_invitation :
  JSMap.get "abc" (activeSessions acceptingClient) = Some 0 /\
  classOf acceptingClient 0 = Invitation /\
  stateOf acceptingClient 0 = "Establishing" /\
  emitted acceptingClient = [EvInvite "abc" 0] /\
  hangupCall "abc" acceptingClient = Returned tt (issue [CmdBye 0] acceptingClient).
Proof. repeat split. Qed.

(** ** State changes *)

(** A listener writes to the registry and to the emitted events only. *)
Lemma listener_frame sid r newState c :
  heap (listener sid r newState c) = heap c /\
  timers (listener sid r newState c) = timers c /\
  commands (listener sid r newState c) = commands c.
Proof.
  unfold listener. destruct (String.eqb newState "Established"); [done |].
  by destruct (String.eqb newState "Terminated").
Qed.

Lemma stateChange_frame r newState c :
  heap (stateChange r newState c) = <[r := set_state newState (heap c !!! r)]> (heap c) /\
  timers (stateChange r newState c) = timers c /\
  commands (stateChange r newState c) = commands c.
Proof.
  unfold stateChange.
  apply (foldl_preserves (fun c' =>
           heap c' = <[r := set_state newState (heap c !!! r)]> (heap c) /\
           timers c' = timers c /\ commands c' = commands c)); [| done].
  intros sid c' (<-&<-&<-). apply listener_frame.
Qed.


(** Once a listener has run for Terminated, its id is out of the registry,
    and the listeners after it do not bring it back. *)
Lemma terminated_listeners_remove r sid (l : list string) :
  forall c, sid ∈ l \/ JSMap.get sid (activeSessions c) = None ->
    JSMap.get sid (activeSessions
                     (foldl (fun acc s => listener s r "Terminated" acc) c l)) = None.
Proof.
  induction l as [|s l IH]; simpl; intros c H.
  - destruct H as [H|H]; [by apply elem_of_nil in H | done].
  - apply IH. unfold listener. simpl.
    destruct H as [H|H].
    + apply elem_of_cons in H as [->|H]; [right | by left].
      apply JSMapFacts.get_delete_eq.
    + right. by apply JSMapFacts.get_delete_None.
Qed.

Lemma stateChange_terminated_removes r sid c :
  sid ∈ listeners (heap c !!! r) ->
  JSMap.get sid (activeSessions (stateChange r "Terminated" c)) = None.
Proof. intros Hin. unfold stateChange. apply terminated_listeners_remove. by left. Qed.

(** ** Timers *)







(** The state of the call [makeCall] leaves behind, in pieces. *)
Lemma makeCall_registered env rnd36 target opts c :
  truthy (isConnected c) = true ->
  exists c',
    makeCall env rnd36 target opts c = Returned (generateSessionId rnd36) c' /\
    heap c' = heap c ++ [{| cls := Inviter; state := "Initial";
                            listeners := [generateSessionId rnd36] |}] /\
    activeSessions c'
      = JSMap.set (generateSessionId rnd36) (length (heap c)) (activeSessions c) /\
    timers c' = timers c ++ [{| callback := CallTimeout (generateSessionId rnd36)
                                              (length (heap c));
                                delay := callTimeoutMs env |}] /\
    commands c' = commands c ++
      [CmdNewInviter (length (heap c)) (targetUri (config c) target)
                     (constraintsOf (orDefault opts));
       CmdInvite (length (heap c))].
Proof.
  intros Hconn. unfold makeCall. rewrite Hconn. simpl.
  eexists. split; [reflexivity |]. simpl. repeat split.
  by rewrite <- app_assoc.
Qed.


(** ** What an action can do to a session object and to the registry *)


Lemma inviteRejected_heap r d : heap (inviteRejected r d) = heap d.
Proof.
  unfold inviteRejected. destruct (is_Inviter _); [| done].
  by apply (foldl_preserves (fun d' => heap d' = heap d)).
Qed.

Lemma handleIncomingCall_heap env rnd36 r d :
  heap (handleIncomingCall env rnd36 r d)
    = <[r := add_listener (generateSessionId rnd36) (heap d !!! r)]> (heap d).
Proof. unfold handleIncomingCall. by destruct (is_true_string _). Qed.

(** Objects are never freed, and an object changes only when the library
    moves it to a new state; then only its state changes. *)
Lemma apply_object env a d r :
  r < length (heap d) ->
  r < length (heap (apply env a d)) /\
  heap (apply env a d) !!! r
    = match a with
      | StateChange r' newState =>
          if decide (r' = r) then set_state newState (heap d !!! r) else heap d !!! r
      | _ => heap d !!! r
      end.
Proof.
  intros Hr.
  destruct a; simpl;
    try (unfold withUserAgent; destruct (userAgent d); [| done]); try done.
  - unfold setRegistered. by destruct (userAgent d).
  - unfold onInvite. rewrite handleIncomingCall_heap. simpl.
    rewrite length_insert, length_app. split; [lia |].
    rewrite list_lookup_total_insert_ne by lia. by apply lookup_total_app_l.
  - destruct (stateChange_frame r0 newState d) as (-> & _).
    rewrite length_insert. split; [done |].
    rewrite list_lookup_total_insert.
    destruct (decide (r0 = r)) as [->|Hne].
    + by rewrite decide_True.
    + rewrite decide_False; [done | by intros []].
  - by rewrite inviteRejected_heap.
  - unfold fire. destruct (timers d !! i) as [t|]; simpl; [| done].
    by destruct (runTimer_only_commands (callback t)
                   (set_timers (delete i (timers d)) d)) as (_&_&_&_&->&_).
  - unfold makeCall. destruct (negb _); simpl; [done |].
    rewrite length_app. split; [lia |]. by apply lookup_total_app_l.
  - by destruct (answerCall_only_commands sessionId options d) as (_&_&_&_&->&_).
  - by destruct (hangupCall_only_commands sessionId d) as (_&_&_&_&->&_).
  - unfold disconnect.
    destruct (hangupAll_only_commands d) as (_&_&_&_&Hh&_).
    destruct (userAgent (hangupAll d)); simpl; by rewrite Hh.
Qed.










(** The other half, on a run: a call that is still ringing out when its
    timer fires is cancelled, once. *)
Example call_timeout_cancels_unanswered_call :
  commands (apply exampleEnv (Fire 0) callingClient)
    = commands callingClient ++ [CmdCancel 0] /\
  timers (apply exampleEnv (Fire 0) callingClient) = [].
Proof. split; reflexivity. Qed.



(** The races of C5 on runs: the call is answered by hand, or hung up by
    hand and so rejected, or ended by the caller, before the timer
    fires. *)
Example auto_answer_after_manual_answer :
  commands (run exampleEnv [AnswerCall "abc" None; StateChange 0 "Establishing";
                            StateChange 0 "Established"; Fire 0] ringingClient)
    = commands ringingClient ++ [CmdAccept 0 audioAndVideo].
Proof. reflexivity. Qed.

Example auto_answer_after_manual_hangup :
  commands (run exampleEnv [HangupCall "abc"; StateChange 0 "Terminated"; Fire 0]
              ringingClient)
    = commands ringingClient ++ [CmdReject 0].
Proof. reflexivity. Qed.

Example auto_answer_after_remote_cancel :
  commands (run exampleEnv [StateChange 0 "Terminated"; Fire 0] ringingClient)
    = commands ringingClient.
Proof. reflexivity. Qed.

(** ** Session identifiers *)

(** C6, as the spec has it, fails: the draw that named a call still in
    progress comes up again, [makeCall] hands out the same identifier a
    second time, and the registry entry now leads to the second call; the
    first is still in its Initial state and no longer reachable by its
    id. *)
Lemma makeCall_reuses_registered_id :
  JSMap.get "4fzyo82mv" (activeSessions callingClient) = Some 0 /\
  stateOf callingClient 0 = "Initial" /\
  exists c',
    makeCall exampleEnv "0.4fzyo82mvyr" "carol" None callingClient
      = Returned "4fzyo82mv" c' /\
    activeSessions c' = [("4fzyo82mv", 1)] /\
    stateOf c' 0 = "Initial".
Proof. repeat split. eexists. repeat split. Qed.

(** C6, amended: an identifier is assigned when the session is created;
    in every state the client can reach, two entries of the registry have
    different identifiers; and when the draw is not an identifier then in
    the registry, the new session is added under it and every other entry
    stays as it was.  The client itself never compares the draw with the
    registry. *)
Theorem session_ids_distinct_in_registry env :
  (forall trace cfg i j id1 r1 id2 r2,
     activeSessions (run env trace (constructor cfg)) !! i = Some (id1, r1) ->
     activeSessions (run env trace (constructor cfg)) !! j = Some (id2, r2) ->
     i <> j -> id1 <> id2) /\
  (forall c rnd36 target opts,
     truthy (isConnected c) = true ->
     JSMap.get (generateSessionId rnd36) (activeSessions c) = None ->
     exists c',
       makeCall env rnd36 target opts c = Returned (generateSessionId rnd36) c' /\
       activeSessions c'
         = activeSessions c ++ [(generateSessionId rnd36, length (heap c))]) /\
  (forall c rnd36 invitation,
     JSMap.get (generateSessionId rnd36) (activeSessions c) = None ->
     activeSessions (handleIncomingCall env rnd36 invitation c)
       = activeSessions c ++ [(generateSessionId rnd36, invitation)]).
Proof.
  split; [| split].
  - intros trace cfg i j id1 r1 id2 r2 Hi Hj Hij ->.
    destruct (well_formed_run env trace cfg) as [Hnd _].
    apply Hij. apply (NoDup_lookup _ i j id2 Hnd); unfold JSMap.keys;
      rewrite list_lookup_fmap; [by rewrite Hi | by rewrite Hj].
  - intros c rnd36 target opts Hconn Hfresh.
    destruct (makeCall_registered env rnd36 target opts c Hconn)
      as (c' & Hcall & _ & Hsessions & _).
    exists c'. split; [exact Hcall |].
    rewrite Hsessions. by apply JSMapFacts.set_fresh.
  - intros c rnd36 invitation Hfresh.
    unfold handleIncomingCall. destruct (is_true_string _); simpl;
      by apply JSMapFacts.set_fresh.
Qed.

Lemma session_ids_distinct_in_registry_witness :
  exists c',
    makeCall exampleEnv "0.zzz" "carol" None callingClient = Returned "zzz" c' /\
    activeSessions c' = [("4fzyo82mv", 0); ("zzz", 1)].
Proof.
  apply (proj1 (proj2 (session_ids_distinct_in_registry exampleEnv))
           callingClient "0.zzz" "carol" None); reflexivity.
Defined.

(** ** Hanging up an id that is not there *)

(** C7: for an id that is not in the registry, [hangupCall] throws
    "Session not found", an [Error] like any other the caller catches, and
    leaves the client as it was; this is also what happens for the id of a
    session that reached Terminated, which its listener removed. *)
Theorem hangupCall_unknown_id sid c :
  (JSMap.get sid (activeSessions c) = None ->
     hangupCall sid c = Thrown SessionNotFound c) /\
  (forall r, sid ∈ listeners (heap c !!! r) ->
     hangupCall sid (stateChange r "Terminated" c)
       = Thrown SessionNotFound (stateChange r "Terminated" c)).
Proof.
  assert (forall d, JSMap.get sid (activeSessions d) = None ->
                    hangupCall sid d = Thrown SessionNotFound d) as Hunknown
    by (intros d Hget; unfold hangupCall; by rewrite Hget).
  split; [apply Hunknown |].
  intros r Hin. by apply Hunknown, stateChange_terminated_removes.
Qed.

Lemma hangupCall_unknown_id_witness :
  hangupCall "nosuchid" callingClient = Thrown SessionNotFound callingClient /\
  hangupCall "4fzyo82mv" (stateChange 0 "Terminated" callingClient)
    = Thrown SessionNotFound (stateChange 0 "Terminated" callingClient).
Proof.
  split.
  - apply (proj1 (hangupCall_unknown_id "nosuchid" callingClient)). reflexivity.
  - apply (proj2 (hangupCall_unknown_id "4fzyo82mv" callingClient) 0).
    apply list_elem_of_singleton. reflexivity.
Defined.

(** ** The guard of [makeCall] *)

Lemma isConnected_Registered c : truthy (isConnected c) = true <-> Registered c.
Proof.
  unfold isConnected, Registered.
  destruct (connected c); [| split; [done | by intros [? _]]].
  destruct (userAgent c) as [ua|]; simpl.
  - split; [eauto | by intros (_ & ua' & [= <-] & ?)].
  - split; [done | by intros (_ & ua' & ? & _)].
Qed.

Lemma makeCall_refused env rnd36 target opts c :
  truthy (isConnected c) = false ->
  makeCall env rnd36 target opts c = Thrown NotRegistered c.
Proof. intros H. unfold makeCall. by rewrite H. Qed.

(** C8, as the spec has it, fails: a registered client places a call
    and the draw is one that names a call in progress; [makeCall] returns
    that id, which is anything but fresh, and the registry is no longer
    than before. *)
Lemma makeCall_returns_id_in_use :
  Registered callingClient /\
  JSMap.get "4fzyo82mv" (activeSessions callingClient) = Some 0 /\
  exists c',
    makeCall exampleEnv "0.4fzyo82mvyr" "carol" None callingClient
      = Returned "4fzyo82mv" c' /\
    length (activeSessions c') = length (activeSessions callingClient).
Proof.
  split; [split; [done | by eexists] |]. split; [done |].
  eexists. split; reflexivity.
Qed.

(** C8, amended: [makeCall] throws "SIP client not connected" whenever the
    client is not registered, and it leaves the client as it was; when the
    client is registered it does not throw: it returns the identifier it
    has just generated, and the registry leads from that identifier to the
    new outbound session, an object that did not exist before.  The
    identifier is new to the registry when the draw is none of the
    identifiers registered then; the registry then grows by this one
    entry. *)
Theorem makeCall_needs_registration env rnd36 target opts c :
  (~ Registered c -> makeCall env rnd36 target opts c = Thrown NotRegistered c) /\
  (Registered c ->
     exists c',
       makeCall env rnd36 target opts c = Returned (generateSessionId rnd36) c' /\
       JSMap.get (generateSessionId rnd36) (activeSessions c')
         = Some (length (heap c)) /\
       heap c !! length (heap c) = None /\
       heap c' !! length (heap c)
         = Some {| cls := Inviter; state := "Initial";
                   listeners := [generateSessionId rnd36] |} /\
       (JSMap.get (generateSessionId rnd36) (activeSessions c) = None ->
          activeSessions c'
            = activeSessions c ++ [(generateSessionId rnd36, length (heap c))])).
Proof.
  split.
  - intros Hnot. apply makeCall_refused.
    destruct (truthy (isConnected c)) eqn:Hconn; [| done].
    by apply isConnected_Registered in Hconn.
  - intros Hreg. apply isConnected_Registered in Hreg.
    destruct (makeCall_registered env rnd36 target opts c Hreg)
      as (c' & Hcall & Hheap & Hsessions & _).
    exists c'. split; [exact Hcall |].
    split; [rewrite Hsessions; apply JSMapFacts.get_set_eq |].
    split; [by apply lookup_ge_None_2 |].
    split; [rewrite Hheap; by apply list_lookup_middle |].
    intros Hfresh. rewrite Hsessions. by apply JSMapFacts.set_fresh.
Qed.

Lemma makeCall_needs_registration_witness :
  makeCall exampleEnv "0.4fzyo82mvyr" "bob" None
           (apply exampleEnv OnDisconnect registeredClient)
    = Thrown NotRegistered (apply exampleEnv OnDisconnect registeredClient) /\
  exists c',
    makeCall exampleEnv "0.4fzyo82mvyr" "bob" None registeredClient
      = Returned "4fzyo82mv" c' /\
    JSMap.get "4fzyo82mv" (activeSessions c') = Some 0 /\
    activeSessions c' = [("4fzyo82mv", 0)].
Proof.
  split.
  - apply (proj1 (makeCall_needs_registration exampleEnv "0.4fzyo82mvyr" "bob" None
                    (apply exampleEnv OnDisconnect registeredClient))).
    intros [Hconn _]. discriminate Hconn.
  - destruct (proj2 (makeCall_needs_registration exampleEnv "0.4fzyo82mvyr" "bob" None
                       registeredClient))
      as (c' & Hcall & Hget & _ & _ & Hfresh).
    + split; [reflexivity |]. eexists. split; reflexivity.
    + exists c'. split; [exact Hcall |]. split; [exact Hget |].
      apply Hfresh. reflexivity.
Defined.

(** ** Media requested on answer *)

Lemma answerCall_default_options sid opts c c' :
  orDefault opts = emptyOptions ->
  answerCall sid opts c = Returned tt c' ->
  exists r, c' = issue [CmdAccept r audioAndVideo] c.
Proof.
  intros Hopts. unfold answerCall. rewrite Hopts.
  destruct (JSMap.get sid (activeSessions c)) as [r|]; [| done].
  destruct (negb _); [done |]. intros [= <-]. by exists r.
Qed.

(** C9: without options, or with the empty options object, [answerCall]
    asks for audio and for video; the auto-answer timer calls it without
    options, so whatever AUDIO_ENABLED and VIDEO_ENABLED said when the
    client connected, an auto-answered call is accepted with both. *)
Theorem answer_without_options_requests_audio_and_video :
  constraintsOf (orDefault None) = audioAndVideo /\
  constraintsOf (orDefault (Some emptyOptions)) = audioAndVideo /\
  (forall sid opts c c',
     opts = None \/ opts = Some emptyOptions ->
     answerCall sid opts c = Returned tt c' ->
     exists r, c' = issue [CmdAccept r audioAndVideo] c) /\
  (forall env trace cfg sid invitation c',
     runTimer (AutoAnswer sid invitation) (run env trace (constructor cfg))
       = Returned tt c' ->
     c' = run env trace (constructor cfg) \/
     exists r, c' = issue [CmdAccept r audioAndVideo] (run env trace (constructor cfg))).
Proof.
  split; [done |]. split; [done |]. split.
  - intros sid opts c c' Hopts. apply answerCall_default_options.
    by destruct Hopts as [-> | ->].
  - intros env trace cfg sid invitation c'. simpl.
    destruct (String.eqb _ _).
    + intros H. right. by apply (answerCall_default_options sid None).
    + intros [= <-]. by left.
Qed.

Lemma answer_without_options_requests_audio_and_video_witness :
  userAgent ringingClient
    = Some {| ua_constraints := {| audio := false; video := None |};
              isRegistered := true |} /\
  exists r, clientOf (fire 0 ringingClient)
            = issue [CmdAccept r audioAndVideo]
                (set_timers [] ringingClient).
Proof.
  split; [reflexivity |].
  apply (proj1 (proj2 (proj2 answer_without_options_requests_audio_and_video))
           "abc" None (set_timers [] ringingClient)); [by left | reflexivity].
Defined.

(** ** Before the client is connected *)

(** C10: before [connect] there is no user agent and the connected flag is
    down, and [isConnected] answers [false]; it answers [false] whenever
    the flag is down, and in every state the client can reach without a
    user agent.  [makeCall] then throws at its guard, and the client, its
    registry and its command log with it, is as it was. *)
Theorem makeCall_refused_before_connect env rnd36 target opts :
  (forall cfg, userAgent (constructor cfg) = None /\
               isConnected (constructor cfg) = JBool false) /\
  (forall trace cfg, userAgent (run env trace (constructor cfg)) = None ->
                     isConnected (run env trace (constructor cfg)) = JBool false) /\
  (forall c, connected c = false -> isConnected c = JBool false) /\
  (forall c, isConnected c = JBool false ->
             makeCall env rnd36 target opts c = Thrown NotRegistered c).
Proof.
  assert (forall c, connected c = false -> isConnected c = JBool false) as Hdown
    by (intros c Hc; unfold isConnected; by rewrite Hc).
  split; [by intros cfg |].
  split; [| split; [exact Hdown |]].
  - intros trace cfg Hua. apply Hdown.
    by apply (well_formed_run env trace cfg).
  - intros c Hc. apply makeCall_refused. by rewrite Hc.
Qed.

Lemma makeCall_refused_before_connect_witness :
  makeCall exampleEnv "0.4fzyo82mvyr" "bob" None (constructor exampleConfig)
    = Thrown NotRegistered (constructor exampleConfig).
Proof.
  apply (proj2 (proj2 (proj2 (makeCall_refused_before_connect exampleEnv
                                "0.4fzyo82mvyr" "bob" None)))).
  apply (proj1 (proj2 (proj2 (makeCall_refused_before_connect exampleEnv
                                "0.4fzyo82mvyr" "bob" None)))).
  reflexivity.
Defined.

(** * More of the client *)

(** ** Identifiers and URIs *)

Lemma length_substring s : forall n m,
  String.length (String.substring n m s) = Nat.min m (String.length s - n).
Proof.
  induction s as [|a s IH]; intros n m.
  - destruct n, m; simpl; lia.
  - destruct n as [|n]; [destruct m as [|m] |]; simpl.
    + done.
    + rewrite IH. lia.
    + apply IH.
Qed.

(** X1: an identifier is what follows the first two characters of the
    random number's rendering, up to nine characters: it is never longer
    than nine, and it is empty when the rendering has nothing after its
    first two characters (a random number of 0 renders as "0"). *)
Theorem generateSessionId_length rnd36 :
  String.length (generateSessionId rnd36) = Nat.min 9 (String.length rnd36 - 2) /\
  String.length (generateSessionId rnd36) <= 9 /\
  (String.length rnd36 <= 2 -> generateSessionId rnd36 = "").
Proof.
  unfold generateSessionId.
  pose proof (length_substring rnd36 2 9) as Hlen.
  split; [exact Hlen |]. split; [lia |].
  intros Hshort. destruct (String.substring 2 9 rnd36); [done |].
  cbn [String.length] in Hlen. lia.
Qed.

Lemma generateSessionId_length_witness : generateSessionId "0" = "".
Proof.
  apply (proj2 (proj2 (generateSessionId_length "0"))). simpl. lia.
Defined.



(** ** What the service reports *)

(** X3: the connected flag the service reports is always a boolean, also
    where [isConnected()] itself answers [undefined] or there is no client
    yet, and it is [true] exactly when there is a client and it is
    registered. *)
Theorem reportedConnected_boolean client :
  exists b, reportedConnected client = JBool b /\
            (b = true <-> exists c, client = Some c /\ Registered c).
Proof.
  destruct client as [c|]; simpl.
  - exists (truthy (isConnected c)). split.
    + unfold isConnected. destruct (connected c); [| done].
      destruct (userAgent c) as [ua|]; [| done]. simpl. by destruct (isRegistered ua).
    + rewrite isConnected_Registered. split; [eauto |].
      by intros (c' & [= <-] & Hreg).
  - exists false. split; [done |]. split; [done | by intros (c & ? & _)].
Qed.

(** ** A session's way into the registry and out of it *)

Lemma delete_absent (k : string) (m : list (string * nat)) :
  JSMap.get k m = None -> JSMap.delete k m = m.
Proof.
  induction m as [|[k' v'] m IH]; simpl; [done |].
  destruct (String.eqb k k'); [done |]. intros H. by rewrite IH.
Qed.

Lemma delete_set_absent (k : string) (v : nat) (m : list (string * nat)) :
  JSMap.get k m = None -> JSMap.delete k (JSMap.set k v m) = m.
Proof.
  induction m as [|[k' v'] m IH]; simpl.
  - by rewrite String.eqb_refl.
  - destruct (String.eqb k k') eqn:Hk; [done |]. simpl. rewrite Hk.
    intros H. by rewrite IH.
Qed.

Lemma listener_emitted sid r newState d :
  emitted (listener sid r newState d) = emitted d ++ eventsOf sid r newState.
Proof.
  unfold listener, eventsOf.
  destruct (String.eqb newState "Established"); [done |].
  destruct (String.eqb newState "Terminated"); [done |].
  by rewrite app_nil_r.
Qed.

Lemma listeners_emitted r newState (l : list string) : forall d,
  emitted (foldl (fun acc s => listener s r newState acc) d l)
    = emitted d ++ concat (map (fun s => eventsOf s r newState) l).
Proof.
  induction l as [|s l IH]; simpl; intros d.
  - by rewrite app_nil_r.
  - by rewrite IH, listener_emitted, <- app_assoc.
Qed.

(** The events of a state change: those of each listener, in the order
    the listeners were added. *)
Lemma stateChange_emitted r newState c :
  emitted (stateChange r newState c)
    = emitted c ++ concat (map (fun s => eventsOf s r newState)
                               (listeners (heap c !!! r))).
Proof. unfold stateChange. by rewrite listeners_emitted. Qed.

Lemma inviteRejected_emitted r d : emitted (inviteRejected r d) = emitted d.
Proof.
  unfold inviteRejected. destruct (is_Inviter _); [| done].
  by apply (foldl_preserves (fun d' => emitted d' = emitted d)).
Qed.

(** X4: a call placed under an identifier that was not in the registry
    leaves the registry as it found it once the call is over: when the
    library reports Terminated, with exactly one [terminated] event, and
    when the invite fails, with no event at all. *)
Theorem makeCall_then_over_restores_registry env rnd36 target opts c :
  truthy (isConnected c) = true ->
  JSMap.get (generateSessionId rnd36) (activeSessions c) = None ->
  exists c',
    makeCall env rnd36 target opts c = Returned (generateSessionId rnd36) c' /\
    activeSessions (stateChange (length (heap c)) "Terminated" c') = activeSessions c /\
    emitted (stateChange (length (heap c)) "Terminated" c')
      = emitted c ++ [EvTerminated (generateSessionId rnd36) (length (heap c))] /\
    activeSessions (inviteRejected (length (heap c)) c') = activeSessions c /\
    emitted (inviteRejected (length (heap c)) c') = emitted c.
Proof.
  intros Hconn Hfresh. unfold makeCall. rewrite Hconn. simpl.
  eexists. split; [reflexivity |].
  unfold stateChange, inviteRejected, classOf. simpl.
  rewrite !list_lookup_total_middle by done. simpl.
  rewrite !delete_set_absent by done.
  repeat split.
Qed.

Lemma makeCall_then_over_restores_registry_witness :
  exists c',
    makeCall exampleEnv "0.zzz" "carol" None callingClient = Returned "zzz" c' /\
    activeSessions (stateChange 1 "Terminated" c') = activeSessions callingClient.
Proof.
  destruct (makeCall_then_over_restores_registry exampleEnv "0.zzz" "carol" None
              callingClient eq_refl eq_refl)
    as (c' & Hcall & Hreg & _).
  exists c'. split; [exact Hcall | exact Hreg].
Defined.

(** ** Shutting down *)

Lemma issue_nil c : issue [] c = c.
Proof. destruct c. unfold issue. simpl. by rewrite app_nil_r. Qed.

(** What [hangupCall] issues, read off the registry and the heap. *)
Lemma hangupCommands_eq c sid :
  hangupCommands c sid
    = match JSMap.get sid (activeSessions c) with
      | None => []
      | Some r =>
          match cls (heap c !!! r) with
          | Inviter =>
              if String.eqb (stateOf c r) "Initial"
                 || String.eqb (stateOf c r) "Establishing"
              then [CmdCancel r] else [CmdBye r]
          | Invitation =>
              if String.eqb (stateOf c r) "Initial" then [CmdReject r] else [CmdBye r]
          | PlainObject => []
          end
      end.
Proof.
  unfold hangupCommands, hangupCall, classOf.
  destruct (JSMap.get sid (activeSessions c)) as [r|]; simpl; [| apply drop_all].
  destruct (cls (heap c !!! r)); simpl.
  - destruct (_ || _); simpl; apply drop_app_length.
  - destruct (String.eqb _ _); simpl; apply drop_app_length.
  - apply drop_all.
Qed.

Lemma hangupCall_issues sid c :
  clientOf (hangupCall sid c) = issue (hangupCommands c sid) c.
Proof.
  rewrite hangupCommands_eq. unfold hangupCall, classOf.
  destruct (JSMap.get sid (activeSessions c)) as [r|]; simpl;
    [| by rewrite issue_nil].
  destruct (cls (heap c !!! r)); simpl.
  - by destruct (_ || _).
  - by destruct (String.eqb _ _).
  - by rewrite issue_nil.
Qed.

Lemma hangupCommands_only_commands c d sid :
  only_commands c d -> hangupCommands d sid = hangupCommands c sid.
Proof.
  intros (_&_&Hs&_&Hh&_). rewrite !hangupCommands_eq. unfold stateOf.
  by rewrite Hs, Hh.
Qed.

Lemma hangupAll_rounds c (l : list (string * nat)) : forall d,
  only_commands c d ->
  commands (foldl (fun acc entry => clientOf (hangupCall entry.1 acc)) d l)
    = commands d ++ concat (map (fun entry => hangupCommands c entry.1) l).
Proof.
  induction l as [|e l IH]; simpl; intros d Hd.
  - by rewrite app_nil_r.
  - rewrite IH.
    + rewrite hangupCall_issues. simpl.
      by rewrite (hangupCommands_only_commands c d), <- app_assoc.
    + eapply only_commands_trans; [exact Hd | apply hangupCall_only_commands].
Qed.

Lemma disconnect_frame u c :
  activeSessions (disconnect u c) = activeSessions c /\
  heap (disconnect u c) = heap c /\
  emitted (disconnect u c) = emitted c /\
  timers (disconnect u c) = timers c /\
  connected (disconnect u c) = false.
Proof.
  destruct (hangupAll_only_commands c) as (_ & _ & Hs & _ & Hh & Ht & He).
  unfold disconnect. by destruct (userAgent (hangupAll c)).
Qed.

Lemma disconnect_commands u c :
  commands (disconnect u c)
    = commands c
      ++ concat (map (fun entry => hangupCommands c entry.1) (activeSessions c))
      ++ match userAgent c with
         | Some _ => CmdUnregister :: if u then [CmdStop] else []
         | None => []
         end.
Proof.
  destruct (hangupAll_only_commands c) as (_ & Hua & _).
  assert (commands (hangupAll c)
          = commands c
            ++ concat (map (fun entry => hangupCommands c entry.1) (activeSessions c)))
    as Hcommands by (apply hangupAll_rounds, only_commands_refl).
  unfold disconnect. rewrite Hua.
  destruct (userAgent c); simpl; by rewrite Hcommands, ?app_nil_r, <- ?app_assoc.
Qed.

(** X5: [disconnect()] asks each registered session to hang up, in the
    order the sessions were registered and each with what
    [hangupCall(id)] alone would have issued; then, if there is a user
    agent, it unregisters it, and stops it when the unregistering
    succeeded and only then.  It removes no session from the registry
    itself, it emits no event, and once it is through the client refuses
    new calls. *)
Theorem disconnect_hangs_up_every_session unregistered c :
  commands (disconnect unregistered c)
    = commands c
      ++ concat (map (fun entry => hangupCommands c entry.1) (activeSessions c))
      ++ match userAgent c with
         | Some _ => CmdUnregister :: if unregistered then [CmdStop] else []
         | None => []
         end /\
  activeSessions (disconnect unregistered c) = activeSessions c /\
  heap (disconnect unregistered c) = heap c /\
  emitted (disconnect unregistered c) = emitted c /\
  timers (disconnect unregistered c) = timers c /\
  connected (disconnect unregistered c) = false /\
  forall env rnd36 target opts,
    makeCall env rnd36 target opts (disconnect unregistered c)
      = Thrown NotRegistered (disconnect unregistered c).
Proof.
  split; [apply disconnect_commands |].
  destruct (disconnect_frame unregistered c) as (Hs & Hh & He & Ht & Hc).
  repeat (split; [done |]).
  intros env rnd36 target opts. apply makeCall_refused.
  unfold isConnected. by rewrite Hc.
Qed.

(** ** Who the client talks to *)

Lemma cls_in_range (h : list SessionObj) r :
  cls (h !!! r) <> PlainObject -> r < length h.
Proof.
  intros Hcls. destruct (decide (r < length h)) as [|Hge]; [done |].
  destruct Hcls. by rewrite list_lookup_total_alt, lookup_ge_None_2 by lia.
Qed.

(** No action changes the class of an object or the listeners on it. *)
Lemma apply_keeps_identity env a d r :
  cls (heap d !!! r) <> PlainObject ->
  cls (heap (apply env a d) !!! r) = cls (heap d !!! r) /\
  listeners (heap (apply env a d) !!! r) = listeners (heap d !!! r).
Proof.
  intros Hcls. destruct (apply_object env a d r (cls_in_range _ _ Hcls)) as [_ ->].
  destruct a; try done. by destruct (decide _).
Qed.

Lemma command_ok_apply env a d k :
  command_ok (heap d) k -> command_ok (heap (apply env a d)) k.
Proof.
  destruct k; simpl; try done; intros H;
    (destruct (apply_keeps_identity env a d r) as [-> _]; [congruence | done]).
Qed.

Lemma timer_ok_apply env a d t :
  timer_ok env (heap d) t -> timer_ok env (heap (apply env a d)) t.
Proof.
  unfold timer_ok. destruct (callback t) as [sid r|sid r]; intros [H Hrest];
    (destruct (apply_keeps_identity env a d r) as [-> _]; [congruence | done]).
Qed.

Lemma entry_ok_apply env a d e :
  entry_ok (heap d) e -> entry_ok (heap (apply env a d)) e.
Proof.
  intros [Hcls Hin]. unfold entry_ok.
  by destruct (apply_keeps_identity env a d e.2 Hcls) as [-> ->].
Qed.

Lemma onInvite_heap env rnd36 d :
  heap (onInvite env rnd36 d)
    = heap d ++ [{| cls := Invitation; state := "Initial";
                    listeners := [generateSessionId rnd36] |}].
Proof.
  unfold onInvite. rewrite handleIncomingCall_heap. simpl.
  rewrite list_lookup_total_middle by done.
  rewrite insert_app_r_alt by done. by rewrite Nat.sub_diag.
Qed.

Lemma inviteRejected_frame r d :
  timers (inviteRejected r d) = timers d /\ commands (inviteRejected r d) = commands d.
Proof.
  unfold inviteRejected. destruct (is_Inviter _); [| done].
  by apply (foldl_preserves (fun d' => timers d' = timers d /\ commands d' = commands d)).
Qed.

(** The heap after an action: as before, or with one object in a new
    state, or with one new object that has a direction and one listener. *)
Lemma apply_heap env a d :
  heap (apply env a d) = heap d \/
  (exists r newState,
      heap (apply env a d) = <[r := set_state newState (heap d !!! r)]> (heap d)) \/
  (exists o, heap (apply env a d) = heap d ++ [o] /\ object_ok o).
Proof.
  destruct a; simpl;
    try (unfold withUserAgent; destruct (userAgent d); [| by left]);
    try (by left).
  - unfold setRegistered. destruct (userAgent d); by left.
  - right. right. rewrite onInvite_heap. eexists. split; [done |]. by split.
  - right. left. exists r, newState. by destruct (stateChange_frame r newState d) as [-> _].
  - left. apply inviteRejected_heap.
  - left. unfold fire. destruct (timers d !! i) as [t|]; simpl; [| done].
    by destruct (runTimer_only_commands (callback t)
                   (set_timers (delete i (timers d)) d)) as (_&_&_&_&->&_).
  - unfold makeCall. destruct (negb _); simpl; [by left |].
    right. right. eexists. split; [done |]. by split.
  - left. by destruct (answerCall_only_commands sessionId options d) as (_&_&_&_&->&_).
  - left. by destruct (hangupCall_only_commands sessionId d) as (_&_&_&_&->&_).
  - left. change (heap (disconnect unregistered d) = heap d). apply disconnect_frame.
Qed.

Lemma apply_objects_ok env a d :
  Forall object_ok (heap d) -> Forall object_ok (heap (apply env a d)).
Proof.
  intros Hobj.
  destruct (apply_heap env a d) as [-> | [(r & newState & ->) | (o & -> & Ho)]].
  - done.
  - destruct (decide (r < length (heap d))) as [Hlt|Hge].
    + apply Forall_insert; [done |].
      apply lookup_lt_is_Some in Hlt as [o Ho].
      rewrite (list_lookup_total_correct _ _ _ Ho).
      by apply (Forall_lookup_1 _ _ _ _ Hobj Ho).
    + by rewrite list_insert_ge by lia.
  - apply Forall_app_2; [done | by apply Forall_singleton].
Qed.

Lemma hangupCommands_ok c sid : Forall (command_ok (heap c)) (hangupCommands c sid).
Proof.
  rewrite hangupCommands_eq.
  destruct (JSMap.get sid (activeSessions c)) as [r|]; [| done].
  destruct (cls (heap c !!! r)) eqn:Hcls; [| | done].
  - destruct (_ || _); apply Forall_singleton; simpl; congruence.
  - destruct (String.eqb _ _); apply Forall_singleton; simpl; congruence.
Qed.

Lemma answerCall_issues sid opts c :
  exists ks, commands (clientOf (answerCall sid opts c)) = commands c ++ ks /\
             Forall (command_ok (heap c)) ks.
Proof.
  unfold answerCall, classOf.
  destruct (JSMap.get sid (activeSessions c)) as [r|]; simpl.
  - destruct (cls (heap c !!! r)) eqn:Hcls; simpl.
    + exists []. by rewrite app_nil_r.
    + eexists. split; [done |]. by apply Forall_singleton.
    + exists []. by rewrite app_nil_r.
  - exists []. by rewrite app_nil_r.
Qed.

Lemma runTimer_issues env cb c delay :
  timer_ok env (heap c) {| callback := cb; delay := delay |} ->
  exists ks, commands (clientOf (runTimer cb c)) = commands c ++ ks /\
             Forall (command_ok (heap c)) ks.
Proof.
  unfold timer_ok. destruct cb as [sid r|sid r]; simpl.
  - intros [Hcls _]. destruct (_ && _); simpl.
    + eexists. split; [done |]. by apply Forall_singleton.
    + exists []. by rewrite app_nil_r.
  - intros _. destruct (String.eqb _ _); [apply answerCall_issues |].
    exists []. simpl. by rewrite app_nil_r.
Qed.

(** The commands an action adds go to objects of the right class. *)
Lemma apply_commands env a d :
  Forall (timer_ok env (heap d)) (timers d) ->
  exists ks, commands (apply env a d) = commands d ++ ks /\
             Forall (command_ok (heap (apply env a d))) ks.
Proof.
  intros Htimers.
  assert (exists ks, commands d = commands d ++ ks /\
                     Forall (command_ok (heap d)) ks) as Hnone
    by (exists []; by rewrite app_nil_r).
  destruct a; simpl;
    try (unfold withUserAgent; destruct (userAgent d); [| exact Hnone]);
    try exact Hnone.
  - eexists. split; [done |]. by apply Forall_singleton.
  - eexists. split; [done |]. by apply Forall_singleton.
  - unfold setRegistered. by destruct (userAgent d).
  - exists []. split; [| done]. rewrite app_nil_r.
    unfold onInvite, handleIncomingCall, setTimeout. by destruct (is_true_string _).
  - exists []. split; [| done]. rewrite app_nil_r.
    by destruct (stateChange_frame r newState d) as (_&_&->).
  - exists []. split; [| done]. rewrite app_nil_r.
    by destruct (inviteRejected_frame r d) as [_ ->].
  - unfold fire. destruct (timers d !! i) as [[cb ms]|] eqn:Ht; [| exact Hnone].
    simpl callback.
    pose proof (Forall_lookup_1 _ _ _ _ Htimers Ht) as Hok.
    destruct (runTimer_issues env cb (set_timers (delete i (timers d)) d) ms Hok)
      as (ks & Hks & Hall).
    exists ks. split; [exact Hks |].
    by destruct (runTimer_only_commands cb (set_timers (delete i (timers d)) d))
      as (_&_&_&_&->&_).
  - unfold makeCall. destruct (negb _); simpl; [exact Hnone |].
    eexists. split; [by rewrite <- app_assoc |].
    apply Forall_cons. split; [| apply Forall_singleton]; simpl;
      by rewrite list_lookup_total_middle.
  - destruct (answerCall_issues sessionId options d) as (ks & Hks & Hall).
    exists ks. split; [exact Hks |].
    by destruct (answerCall_only_commands sessionId options d) as (_&_&_&_&->&_).
  - exists (hangupCommands d sessionId). rewrite hangupCall_issues. simpl.
    split; [done | apply hangupCommands_ok].
  - change (exists ks, commands (disconnect unregistered d) = commands d ++ ks /\
                       Forall (command_ok (heap (disconnect unregistered d))) ks).
    rewrite disconnect_commands.
    destruct (disconnect_frame unregistered d) as (_ & -> & _).
    eexists. split; [done |].
    apply Forall_app_2;
      [| by destruct (userAgent d), unregistered; repeat constructor].
    apply Forall_concat, Forall_fmap, Forall_forall.
    intros e _. apply hangupCommands_ok.
Qed.

(** The timers pending after an action were pending before, or were
    scheduled by it as the code schedules them. *)
Lemma apply_timers env a d t :
  t ∈ timers (apply env a d) ->
  t ∈ timers d \/ timer_ok env (heap (apply env a d)) t.
Proof.
  destruct a; simpl;
    try (unfold withUserAgent; destruct (userAgent d); [| by left]);
    try (by left).
  - unfold setRegistered. destruct (userAgent d); by left.
  - rewrite onInvite_heap.
    unfold onInvite, handleIncomingCall, setTimeout.
    destruct (is_true_string _) eqn:Hauto; simpl; [| by left].
    intros [Hold | ->%list_elem_of_singleton]%elem_of_app; [by left | right].
    unfold timer_ok. simpl. by rewrite list_lookup_total_middle.
  - destruct (stateChange_frame r newState d) as (_&->&_). by left.
  - destruct (inviteRejected_frame r d) as [-> _]. by left.
  - unfold fire. destruct (timers d !! i) as [t'|] eqn:Ht; simpl; [| by left].
    destruct (runTimer_only_commands (callback t')
                (set_timers (delete i (timers d)) d)) as (_&_&_&_&_&->&_).
    simpl. intros Hin. left. by apply list_elem_of_delete_inv in Hin.
  - unfold makeCall. destruct (negb _); simpl; [by left |].
    intros [Hold | ->%list_elem_of_singleton]%elem_of_app; [by left | right].
    unfold timer_ok. simpl. by rewrite list_lookup_total_middle.
  - destruct (answerCall_only_commands sessionId options d) as (_&_&_&_&_&->&_).
    by left.
  - destruct (hangupCall_only_commands sessionId d) as (_&_&_&_&_&->&_). by left.
  - change (t ∈ timers (disconnect unregistered d) ->
            t ∈ timers d \/ timer_ok env (heap (disconnect unregistered d)) t).
    destruct (disconnect_frame unregistered d) as (_&_&_&->&_). by left.
Qed.

Lemma elem_of_set (k : string) (v : nat) (m : list (string * nat)) e :
  e ∈ JSMap.set k v m -> e = (k, v) \/ e ∈ m.
Proof.
  induction m as [|[k' v'] m IH]; simpl.
  - intros ->%list_elem_of_singleton. by left.
  - destruct (String.eqb k k').
    + intros [-> | H]%elem_of_cons; [by left | right; by apply elem_of_cons; right].
    + intros [-> | H]%elem_of_cons; [right; by apply elem_of_cons; left |].
      destruct (IH H) as [-> | H']; [by left | right; by apply elem_of_cons; right].
Qed.

Lemma elem_of_delete (k : string) (m : list (string * nat)) e :
  e ∈ JSMap.delete k m -> e ∈ m.
Proof.
  induction m as [|[k' v'] m IH]; simpl; [done |].
  destruct (String.eqb k k').
  - intros H. apply elem_of_cons. right. by apply IH.
  - intros [-> | H]%elem_of_cons; apply elem_of_cons; [by left | right; by apply IH].
Qed.

Lemma listener_entries sid r newState d e :
  e ∈ activeSessions (listener sid r newState d) -> e ∈ activeSessions d.
Proof.
  unfold listener. destruct (String.eqb newState "Established"); [done |].
  destruct (String.eqb newState "Terminated"); [| done].
  simpl. apply elem_of_delete.
Qed.

(** The entries of the registry after an action were there before, or
    were made by it for a session it has just created. *)
Lemma apply_entries env a d e :
  e ∈ activeSessions (apply env a d) ->
  e ∈ activeSessions d \/ entry_ok (heap (apply env a d)) e.
Proof.
  destruct a; simpl;
    try (unfold withUserAgent; destruct (userAgent d); [| by left]);
    try (by left).
  - unfold setRegistered. destruct (userAgent d); by left.
  - rewrite onInvite_heap.
    assert (activeSessions (onInvite env rnd36 d)
            = JSMap.set (generateSessionId rnd36) (length (heap d)) (activeSessions d))
      as -> by (unfold onInvite, handleIncomingCall, setTimeout;
                by destruct (is_true_string _)).
    intros [-> | Hold]%elem_of_set; [right | by left].
    unfold entry_ok. simpl. rewrite list_lookup_total_middle by done. simpl.
    split; [done | by apply list_elem_of_singleton].
  - intros Hin. left. revert Hin. unfold stateChange.
    apply (foldl_preserves
             (fun d' => e ∈ activeSessions d' -> e ∈ activeSessions d)); [| done].
    intros s d' IH Hin. by apply IH, (listener_entries s r newState).
  - intros Hin. left. revert Hin. unfold inviteRejected.
    destruct (is_Inviter _); [| done].
    apply (foldl_preserves
             (fun d' => e ∈ activeSessions d' -> e ∈ activeSessions d)); [| done].
    intros s d' IH Hin. by apply IH, (elem_of_delete s).
  - unfold fire. destruct (timers d !! i) as [t'|]; simpl; [| by left].
    destruct (runTimer_only_commands (callback t')
                (set_timers (delete i (timers d)) d)) as (_&_&->&_). by left.
  - unfold makeCall. destruct (negb _); simpl; [by left |].
    intros [-> | Hold]%elem_of_set; [right | by left].
    unfold entry_ok. simpl. rewrite list_lookup_total_middle by done. simpl.
    split; [done | by apply list_elem_of_singleton].
  - destruct (answerCall_only_commands sessionId options d) as (_&_&->&_). by left.
  - destruct (hangupCall_only_commands sessionId d) as (_&_&->&_). by left.
  - change (e ∈ activeSessions (disconnect unregistered d) ->
            e ∈ activeSessions d \/ entry_ok (heap (disconnect unregistered d)) e).
    destruct (disconnect_frame unregistered d) as (->&_). by left.
Qed.

Lemma coherent_constructor env cfg : coherent env (constructor cfg).
Proof. by repeat split. Qed.

Lemma coherent_apply env a d : coherent env d -> coherent env (apply env a d).
Proof.
  intros (Hobj & Hcmd & Htim & Hent). repeat split.
  - by apply apply_objects_ok.
  - destruct (apply_commands env a d Htim) as (ks & -> & Hks).
    apply Forall_app_2; [| done].
    eapply Forall_impl; [exact Hcmd |]. intros k. apply command_ok_apply.
  - apply Forall_forall. intros t [Hold | Hnew]%apply_timers; [| done].
    apply timer_ok_apply. by apply (proj1 (Forall_forall _ _) Htim).
  - apply Forall_forall. intros e [Hold | Hnew]%apply_entries; [| done].
    apply entry_ok_apply. by apply (proj1 (Forall_forall _ _) Hent).
Qed.

Lemma coherent_run env trace cfg : coherent env (run env trace (constructor cfg)).
Proof.
  unfold run. apply (foldl_preserves (coherent env)).
  - intros a d. apply coherent_apply.
  - apply coherent_constructor.
Qed.

(** X6: whatever the client has been through, every command it has
    issued went to an object of the class that has the method: [invite]
    and [cancel] to an Inviter, [accept] and [reject] to an Invitation,
    [bye] to one of the two.  An inbound call is never cancelled and an
    outbound call is never accepted or rejected. *)
Theorem commands_respect_direction env trace cfg r :
  (CmdInvite r ∈ commands (run env trace (constructor cfg)) ->
     classOf (run env trace (constructor cfg)) r = Inviter) /\
  (CmdCancel r ∈ commands (run env trace (constructor cfg)) ->
     classOf (run env trace (constructor cfg)) r = Inviter) /\
  (forall k, CmdAccept r k ∈ commands (run env trace (constructor cfg)) ->
     classOf (run env trace (constructor cfg)) r = Invitation) /\
  (CmdReject r ∈ commands (run env trace (constructor cfg)) ->
     classOf (run env trace (constructor cfg)) r = Invitation) /\
  (CmdBye r ∈ commands (run env trace (constructor cfg)) ->
     classOf (run env trace (constructor cfg)) r <> PlainObject).
Proof.
  destruct (coherent_run env trace cfg) as (_ & Hcmd & _).
  pose proof (proj1 (Forall_forall _ _) Hcmd) as Hok.
  repeat split; intros; by apply (Hok _ ltac:(eassumption)).
Qed.

Lemma commands_respect_direction_witness :
  classOf (run exampleEnv [HangupCall "abc"] ringingClient) 0 = Invitation.
Proof.
  apply (proj1 (proj2 (proj2 (proj2
           (commands_respect_direction exampleEnv
              [Connect; OnConnect; SetRegistered true; OnInvite "0.abc";
               HangupCall "abc"] exampleConfig 0))))).
  apply list_elem_of_In. simpl. auto.
Defined.

Lemma roundToDouble_small z :
  (Z.abs z < 2 ^ 53)%Z -> roundToDouble z = Finite z.
Proof.
  intros Hsmall. unfold roundToDouble.
  by destruct (Z.ltb_spec (Z.abs z) (2 ^ 53)); [| lia].
Qed.

(** Rounding to a double never turns an integer that is not zero into
    zero. *)
Lemma roundToDouble_zero z : roundToDouble z = Finite 0 -> z = 0%Z.
Proof.
  unfold roundToDouble.
  destruct (Z.ltb_spec (Z.abs z) (2 ^ 53)) as [|Hbig]; [by intros [= ->] |].
  set (e := (Z.log2 (Z.abs z) - 52)%Z).
  set (q := (Z.abs z / 2 ^ e)%Z).
  match goal with
  | |- context [if ?b then (q + 1)%Z else q] => set (q' := if b then (q + 1)%Z else q)
  end.
  destruct (2 ^ 1024 <=? q' * 2 ^ e)%Z; [done |]. intros [= Hzero].
  assert (53 <= Z.log2 (Z.abs z))%Z as Hlog.
  { rewrite <- (Z.log2_pow2 53) by lia. by apply Z.log2_le_mono. }
  assert (0 < 2 ^ e)%Z as Hpow by (apply Z.pow_pos_nonneg; lia).
  assert (2 ^ e <= Z.abs z)%Z as Hle.
  { transitivity (2 ^ Z.log2 (Z.abs z))%Z.
    - apply Z.pow_le_mono_r; lia.
    - apply Z.log2_spec. lia. }
  assert (0 < q)%Z as Hq by (by apply Z.div_str_pos).
  assert (0 < q')%Z as Hq' by (unfold q'; case_match; lia).
  assert (0 < q' * 2 ^ e)%Z by (by apply Z.mul_pos_pos).
  assert (Z.sgn z <> 0)%Z by (rewrite Z.sgn_null_iff; lia).
  nia.
Qed.

(** The ring timeout, case by case. *)
Lemma callTimeoutMs_cases env :
  number_truthy (callTimeoutMs env) = true /\
  callTimeoutMs env
    = match CALL_TIMEOUT env with
      | NaN => Finite 30000
      | Infinite negative => Infinite negative
      | Finite n => if (n =? 0)%Z then Finite 30000 else roundToDouble (n * 1000)
      end.
Proof.
  unfold callTimeoutMs. split.
  - by destruct (number_truthy (times1000 (CALL_TIMEOUT env))) eqn:H.
  - destruct (CALL_TIMEOUT env) as [|negative|n]; simpl; [done | done |].
    destruct (Z.eqb_spec n 0) as [->|Hn]; [done |].
    destruct (roundToDouble (n * 1000)) as [| |z] eqn:Hround; simpl.
    + unfold roundToDouble in Hround. by repeat case_match.
    + done.
    + destruct (Z.eqb_spec z 0) as [->|]; [| done].
      apply roundToDouble_zero in Hround. lia.
Qed.

(** X7: every timer that is pending was scheduled as the code schedules
    it.  A ring timeout belongs to an outbound call; its delay is 30000
    when CALL_TIMEOUT does not parse or parses as 0, and otherwise the
    double that 1000 times the parsed number comes to, which is that
    product itself as long as it stays below 2^53 in size; it is never 0
    and never NaN.  An auto-answer belongs to an inbound call, is 1000
    long, and there is none unless AUTO_ANSWER is 'true'. *)
Theorem pending_timers_as_scheduled env trace cfg t :
  t ∈ timers (run env trace (constructor cfg)) ->
  match callback t with
  | CallTimeout _ inviter =>
      classOf (run env trace (constructor cfg)) inviter = Inviter /\
      number_truthy (delay t) = true /\
      delay t = match CALL_TIMEOUT env with
                | NaN => Finite 30000
                | Infinite negative => Infinite negative
                | Finite n =>
                    if (n =? 0)%Z then Finite 30000 else roundToDouble (n * 1000)
                end /\
      (forall n, CALL_TIMEOUT env = Finite n -> n <> 0%Z ->
                 (Z.abs (n * 1000) < 2 ^ 53)%Z -> delay t = Finite (n * 1000))
  | AutoAnswer _ invitation =>
      classOf (run env trace (constructor cfg)) invitation = Invitation /\
      delay t = Finite 1000 /\
      AUTO_ANSWER env = Some "true"
  end.
Proof.
  intros Hin.
  destruct (coherent_run env trace cfg) as (_ & _ & Htim & _).
  pose proof (proj1 (Forall_forall _ _) Htim t Hin) as Hok.
  unfold timer_ok in Hok. destruct (callback t) as [sid r|sid r].
  - destruct Hok as [Hcls ->]. split; [exact Hcls |].
    destruct (callTimeoutMs_cases env) as [Htruthy Hcases].
    split; [exact Htruthy |]. split; [exact Hcases |].
    intros n Hn Hnz Hsmall. rewrite Hcases, Hn.
    destruct (Z.eqb_spec n 0); [done |]. by apply roundToDouble_small.
  - destruct Hok as (Hcls & Hdelay & Hauto). repeat split; [done | done |].
    unfold is_true_string in Hauto. destruct (AUTO_ANSWER env) as [s|]; [| done].
    by apply String.eqb_eq in Hauto as ->.
Qed.

Lemma pending_timers_as_scheduled_witness :
  delay {| callback := CallTimeout "4fzyo82mv" 0; delay := Finite 5000 |}
    = Finite (5 * 1000).
Proof.
  apply (pending_timers_as_scheduled exampleEnv
           [Connect; OnConnect; SetRegistered true;
            MakeCall "0.4fzyo82mvyr" "bob" None] exampleConfig
           {| callback := CallTimeout "4fzyo82mv" 0; delay := Finite 5000 |}).
  - apply list_elem_of_In. simpl. auto.
  - reflexivity.
  - discriminate.
  - simpl. lia.
Defined.

(** The ring timeout where the doubles show: 2^53 - 1 seconds come to
    a delay 24 short of the thousandfold. *)
Example callTimeoutMs_rounds :
  callTimeoutMs {| AUDIO_ENABLED := None; VIDEO_ENABLED := None; AUTO_ANSWER := None;
                   CALL_TIMEOUT := Finite 9007199254740991 |}
    = Finite 9007199254740990976.
Proof. reflexivity. Qed.

Lemma get_elem (k : string) (v : nat) (m : list (string * nat)) :
  JSMap.get k m = Some v -> (k, v) ∈ m.
Proof.
  induction m as [|[k' v'] m IH]; simpl; [done |].
  destruct (String.eqb_spec k k') as [->|Hne].
  - intros [= ->]. apply elem_of_cons. by left.
  - intros H. apply elem_of_cons. right. by apply IH.
Qed.

Lemma elem_get (k : string) (v : nat) (m : list (string * nat)) :
  NoDup (JSMap.keys m) -> (k, v) ∈ m -> JSMap.get k m = Some v.
Proof.
  unfold JSMap.keys. induction m as [|[k' v'] m IH]; cbn.
  - intros _ H. by apply elem_of_nil in H.
  - rewrite NoDup_cons. intros [Hnotin Hnd] [[= -> ->] | Hin]%elem_of_cons.
    + by rewrite String.eqb_refl.
    + destruct (String.eqb_spec k k') as [->|Hne]; [| by apply IH].
      destruct Hnotin. apply list_elem_of_fmap. by exists (k', v).
Qed.

(** X8: in every state the client can reach, a registered id leads to a
    session with a direction, so [hangupCall] on a registered id always
    issues exactly one of cancel, reject and bye to that session; it never
    returns without having asked the library for anything. *)
Theorem hangupCall_registered_id_one_primitive env trace cfg sid r :
  JSMap.get sid (activeSessions (run env trace (constructor cfg))) = Some r ->
  classOf (run env trace (constructor cfg)) r <> PlainObject /\
  exists k, (k = CmdCancel r \/ k = CmdReject r \/ k = CmdBye r) /\
            hangupCall sid (run env trace (constructor cfg))
              = Returned tt (issue [k] (run env trace (constructor cfg))).
Proof.
  intros Hget.
  destruct (coherent_run env trace cfg) as (_ & _ & _ & Hent).
  destruct (proj1 (Forall_forall _ _) Hent (sid, r) (get_elem _ _ _ Hget)) as [Hcls _].
  split; [exact Hcls |]. by apply hangupCall_one_primitive.
Qed.

Lemma hangupCall_registered_id_one_primitive_witness :
  exists k, (k = CmdCancel 0 \/ k = CmdReject 0 \/ k = CmdBye 0) /\
            hangupCall "4fzyo82mv" callingClient
              = Returned tt (issue [k] callingClient).
Proof.
  apply (hangupCall_registered_id_one_primitive exampleEnv
           [Connect; OnConnect; SetRegistered true;
            MakeCall "0.4fzyo82mvyr" "bob" None] exampleConfig "4fzyo82mv" 0).
  reflexivity.
Defined.

Lemma hangup_rounds_paired c (l : list (string * nat)) :
  Forall (fun e => JSMap.get e.1 (activeSessions c) = Some e.2 /\
                   cls (heap c !!! e.2) <> PlainObject) l ->
  Forall2 (fun e k => k = CmdCancel e.2 \/ k = CmdReject e.2 \/ k = CmdBye e.2)
          l (concat (map (fun e => hangupCommands c e.1) l)).
Proof.
  induction 1 as [|e l [Hget Hcls] _ IH]; simpl; [constructor |].
  rewrite hangupCommands_eq, Hget.
  destruct (cls (heap c !!! e.2)); [| | done].
  - destruct (_ || _); constructor; auto.
  - destruct (String.eqb _ _); constructor; auto.
Qed.

(** X9: on a client in a state it can reach, the loop of [disconnect()]
    issues exactly one hangup primitive for each registered session, in
    the order of the registry, to that session, and nothing else. *)
Theorem disconnect_one_primitive_per_session env trace cfg :
  exists ks,
    commands (hangupAll (run env trace (constructor cfg)))
      = commands (run env trace (constructor cfg)) ++ ks /\
    Forall2 (fun e k => k = CmdCancel e.2 \/ k = CmdReject e.2 \/ k = CmdBye e.2)
            (activeSessions (run env trace (constructor cfg))) ks.
Proof.
  set (c := run env trace (constructor cfg)).
  eexists. split.
  - unfold hangupAll. apply hangupAll_rounds, only_commands_refl.
  - apply hangup_rounds_paired.
    destruct (coherent_run env trace cfg) as (_ & _ & _ & Hent).
    destruct (well_formed_run env trace cfg) as [Hnd _].
    apply Forall_forall. intros [sid r] Hin. split.
    + by apply elem_get.
    + by destruct (proj1 (Forall_forall _ _) Hent (sid, r) Hin).
Qed.

(** X10: in every state the client can reach, each session object has
    exactly one listener, so one state change reported by the library
    makes the client emit at most one event, under the id the session was
    registered with: one [established] for Established and no change to
    the registry, one [terminated] for Terminated and the id out of the
    registry, and nothing at all for any other state. *)
Theorem one_event_per_state_change env trace cfg r newState :
  r < length (heap (run env trace (constructor cfg))) ->
  exists sid,
    listeners (heap (run env trace (constructor cfg)) !!! r) = [sid] /\
    (newState = "Established" ->
       emitted (stateChange r newState (run env trace (constructor cfg)))
         = emitted (run env trace (constructor cfg)) ++ [EvEstablished sid r] /\
       activeSessions (stateChange r newState (run env trace (constructor cfg)))
         = activeSessions (run env trace (constructor cfg))) /\
    (newState = "Terminated" ->
       emitted (stateChange r newState (run env trace (constructor cfg)))
         = emitted (run env trace (constructor cfg)) ++ [EvTerminated sid r] /\
       JSMap.get sid
         (activeSessions (stateChange r newState (run env trace (constructor cfg))))
         = None) /\
    (newState <> "Established" -> newState <> "Terminated" ->
       emitted (stateChange r newState (run env trace (constructor cfg)))
         = emitted (run env trace (constructor cfg)) /\
       activeSessions (stateChange r newState (run env trace (constructor cfg)))
         = activeSessions (run env trace (constructor cfg))).
Proof.
  set (c := run env trace (constructor cfg)). intros Hlt.
  destruct (coherent_run env trace cfg) as (Hobj & _).
  apply lookup_lt_is_Some in Hlt as [o Ho].
  destruct (Forall_lookup_1 _ _ _ _ Hobj Ho) as [_ Hone].
  fold c in Ho. rewrite (list_lookup_total_correct _ _ _ Ho).
  destruct (listeners o) as [|sid [|]] eqn:Hl; try done.
  exists sid. split; [done |].
  assert (emitted (stateChange r newState c) = emitted c ++ eventsOf sid r newState)
    as Hemitted.
  { rewrite stateChange_emitted, (list_lookup_total_correct _ _ _ Ho), Hl. simpl.
    by rewrite app_nil_r. }
  unfold eventsOf in Hemitted. split; [| split].
  - intros ->. split; [done | by apply stateChange_keeps_sessions].
  - intros ->. split; [done |]. apply stateChange_terminated_removes.
    rewrite (list_lookup_total_correct _ _ _ Ho), Hl. by apply list_elem_of_singleton.
  - intros Hne1 Hne2. split; [| by apply stateChange_keeps_sessions].
    rewrite Hemitted.
    destruct (String.eqb_spec newState "Established"); [done |].
    destruct (String.eqb_spec newState "Terminated"); [done |].
    by rewrite app_nil_r.
Qed.

Lemma one_event_per_state_change_witness :
  exists sid,
    listeners (heap callingClient !!! 0) = [sid] /\
    emitted (stateChange 0 "Established" callingClient)
      = emitted callingClient ++ [EvEstablished sid 0].
Proof.
  destruct (one_event_per_state_change exampleEnv
              [Connect; OnConnect; SetRegistered true;
               MakeCall "0.4fzyo82mvyr" "bob" None] exampleConfig 0 "Established")
    as (sid & Hl & Hest & _).
  - simpl. lia.
  - exists sid. split; [exact Hl |]. by destruct (Hest eq_refl).
Defined.

(** ** The HTTP routes *)

Lemma strict_neq_false_orTrue v : strict_neq_false (orTrue v) = strict_neq_false v.
Proof. by destruct v. Qed.

Lemma strict_neq_false_iff v : strict_neq_false v = false <-> v = JBool false.
Proof. destruct v as [| |[]| |]; naive_solver. Qed.

Lemma makeCall_throws_unchanged env rnd36 target opts c e c' :
  makeCallValue env rnd36 target opts c = Thrown e c' -> c' = c.
Proof.
  unfold makeCallValue, makeCall. destruct target; try (destruct (negb _); congruence).
Qed.

(** X11: [POST /api/call].  Without a target (absent, empty, or otherwise
    falsy) the answer is 400 and the client is not called.  With a target
    but a client that is not registered the answer is 500 with the
    client's message.  With a string target and a registered client the
    answer is 200 with the new session id, and the call is placed with
    audio and video each requested unless the body gives exactly [false]
    for it: absent, [null], 0 and the like all request it.  Any answer
    other than 200 leaves the client as it was. *)
Theorem postCall_responses env rnd36 target v a c :
  (truthy target = false ->
     postCall env rnd36 target v a c
       = ({| status := 400; body := BodyError "Target is required" |}, c)) /\
  (truthy target = true -> ~ Registered c ->
     postCall env rnd36 target v a c
       = ({| status := 500; body := BodyError "SIP client not connected" |}, c)) /\
  (forall s, target = JStr s -> s <> "" -> Registered c ->
     exists c',
       postCall env rnd36 target v a c
         = ({| status := 200; body := BodyCalling (generateSessionId rnd36) |}, c') /\
       commands c'
         = commands c ++
           [CmdNewInviter (length (heap c)) (targetUri (config c) s)
              {| audio := strict_neq_false a;
                 video := if strict_neq_false v then Some hdVideo else None |};
            CmdInvite (length (heap c))] /\
       (strict_neq_false a = false <-> a = JBool false) /\
       (strict_neq_false v = false <-> v = JBool false)) /\
  (status (postCall env rnd36 target v a c).1 <> 200 ->
     (postCall env rnd36 target v a c).2 = c).
Proof.
  split; [| split; [| split]].
  - intros Hfalsy. unfold postCall. by rewrite Hfalsy.
  - intros Htruthy Hnot. unfold postCall. rewrite Htruthy. simpl.
    assert (truthy (isConnected c) = false) as Hconn.
    { destruct (truthy (isConnected c)) eqn:H; [| done].
      by apply isConnected_Registered in H. }
    unfold makeCallValue. destruct target; rewrite ?makeCall_refused by done;
      rewrite ?Hconn; done.
  - intros s -> Hs Hreg. apply isConnected_Registered in Hreg.
    unfold postCall. simpl.
    destruct (String.eqb_spec s ""); [done |]. simpl.
    destruct (makeCall_registered env rnd36 s
                (Some {| opt_audio := orTrue a; opt_video := orTrue v |}) c Hreg)
      as (c' & -> & _ & _ & _ & Hcommands).
    exists c'. split; [done |]. split.
    + rewrite Hcommands. unfold constraintsOf. simpl.
      by rewrite !strict_neq_false_orTrue.
    + split; apply strict_neq_false_iff.
  - unfold postCall. destruct (negb (truthy target)); [done |].
    destruct (makeCallValue _ _ _ _ _) as [sid c'|e c'] eqn:Hcall; simpl; [done |].
    intros _. by apply makeCall_throws_unchanged in Hcall.
Qed.

Lemma postCall_responses_witness :
  postCall exampleEnv "0.4fzyo82mvyr" (JStr "") JUndefined JUndefined registeredClient
    = ({| status := 400; body := BodyError "Target is required" |}, registeredClient) /\
  exists c',
    postCall exampleEnv "0.4fzyo82mvyr" (JStr "bob") JNull (JBool false)
             registeredClient
      = ({| status := 200; body := BodyCalling "4fzyo82mv" |}, c') /\
    commands c'
      = commands registeredClient ++
        [CmdNewInviter 0 "sip:bob@pbx.local" {| audio := false; video := Some hdVideo |};
         CmdInvite 0].
Proof.
  split.
  - apply (proj1 (postCall_responses exampleEnv "0.4fzyo82mvyr" (JStr "")
                    JUndefined JUndefined registeredClient)).
    reflexivity.
  - destruct (proj1 (proj2 (proj2 (postCall_responses exampleEnv "0.4fzyo82mvyr"
                (JStr "bob") JNull (JBool false) registeredClient))) "bob")
      as (c' & Hpost & Hcommands & _).
    + reflexivity.
    + discriminate.
    + split; [reflexivity |]. eexists. split; reflexivity.
    + exists c'. split; [exact Hpost | exact Hcommands].
Defined.

(** X12: [POST /api/answer/:sessionId].  For an id that is not registered
    and for the id of an outbound call the answer is 500 with the one
    message the client has for both, and the client is as it was; for the
    id of an inbound call the answer is 200 and the accept is issued, with
    audio and video each requested unless the body gives exactly [false]
    for it. *)
Theorem postAnswer_responses sid v a c :
  (JSMap.get sid (activeSessions c) = None ->
     postAnswer sid v a c
       = ({| status := 500; body := BodyError "Invalid session or session not found" |},
          c)) /\
  (forall r, JSMap.get sid (activeSessions c) = Some r -> classOf c r <> Invitation ->
     postAnswer sid v a c
       = ({| status := 500; body := BodyError "Invalid session or session not found" |},
          c)) /\
  (forall r, JSMap.get sid (activeSessions c) = Some r -> classOf c r = Invitation ->
     postAnswer sid v a c
       = ({| status := 200; body := BodyAnswered |},
          issue [CmdAccept r
                   {| audio := strict_neq_false a;
                      video := if strict_neq_false v then Some hdVideo else None |}] c)).
Proof.
  split; [| split].
  - intros Hget. unfold postAnswer. by rewrite answerCall_unknown.
  - intros r Hget Hcls. unfold postAnswer.
    by rewrite (answerCall_not_invitation _ _ _ r).
  - intros r Hget Hcls. unfold postAnswer.
    rewrite (answerCall_invitation _ _ _ r) by done.
    unfold constraintsOf. simpl. by rewrite !strict_neq_false_orTrue.
Qed.

Lemma postAnswer_responses_witness :
  postAnswer "abc" (JBool false) JUndefined ringingClient
    = ({| status := 200; body := BodyAnswered |},
       issue [CmdAccept 0 {| audio := true; video := None |}] ringingClient) /\
  postAnswer "4fzyo82mv" JUndefined JUndefined callingClient
    = ({| status := 500; body := BodyError "Invalid session or session not found" |},
       callingClient).
Proof.
  split.
  - apply (proj2 (proj2 (postAnswer_responses "abc" (JBool false) JUndefined
                           ringingClient)) 0); reflexivity.
  - apply (proj1 (proj2 (postAnswer_responses "4fzyo82mv" JUndefined JUndefined
                           callingClient)) 0); [reflexivity | discriminate].
Defined.

(** X13: [POST /api/hangup/:sessionId], on a client in a state it can
    reach.  For an id that is not registered the answer is 500 with
    "Session not found" and the client is as it was; for a registered id
    the answer is 200 and exactly one of cancel, reject and bye has gone
    to the session. *)
Theorem postHangup_responses env trace cfg sid :
  (JSMap.get sid (activeSessions (run env trace (constructor cfg))) = None ->
     postHangup sid (run env trace (constructor cfg))
       = ({| status := 500; body := BodyError "Session not found" |},
          run env trace (constructor cfg))) /\
  (forall r,
     JSMap.get sid (activeSessions (run env trace (constructor cfg))) = Some r ->
     exists k, (k = CmdCancel r \/ k = CmdReject r \/ k = CmdBye r) /\
       postHangup sid (run env trace (constructor cfg))
         = ({| status := 200; body := BodyHangup |},
            issue [k] (run env trace (constructor cfg)))).
Proof.
  set (c := run env trace (constructor cfg)). split.
  - intros Hget. unfold postHangup, hangupCall. by rewrite Hget.
  - intros r Hget.
    destruct (coherent_run env trace cfg) as (_ & _ & _ & Hent).
    destruct (proj1 (Forall_forall _ _) Hent (sid, r) (get_elem _ _ _ Hget))
      as [Hcls _].
    destruct (hangupCall_one_primitive sid c r Hget Hcls) as (k & Hk & Hcall).
    exists k. split; [exact Hk |]. unfold postHangup. by rewrite Hcall.
Qed.

Lemma postHangup_responses_witness :
  postHangup "nosuchid" callingClient
    = ({| status := 500; body := BodyError "Session not found" |}, callingClient).
Proof.
  apply (proj1 (postHangup_responses exampleEnv
                  [Connect; OnConnect; SetRegistered true;
                   MakeCall "0.4fzyo82mvyr" "bob" None] exampleConfig "nosuchid")).
  reflexivity.
Defined.

(** ** What does not touch the connection *)

Lemma listener_connection sid r newState d :
  userAgent (listener sid r newState d) = userAgent d /\
  connected (listener sid r newState d) = connected d.
Proof.
  unfold listener. destruct (String.eqb newState "Established"); [done |].
  by destruct (String.eqb newState "Terminated").
Qed.

(** X14: calls do not change whether the client counts as connected.
    Placing, answering and hanging up a call, an incoming call, a session
    changing state, a failed invite and a timer firing all leave the
    connected flag and the user agent as they were, and with them the
    answer of [isConnected()]. *)
Theorem calls_keep_connection env a c :
  about_connection a = false ->
  connected (apply env a c) = connected c /\
  userAgent (apply env a c) = userAgent c /\
  isConnected (apply env a c) = isConnected c.
Proof.
  intros Ha.
  assert (connected (apply env a c) = connected c /\
          userAgent (apply env a c) = userAgent c) as [Hc Hua].
  { destruct a; try discriminate Ha; simpl;
      try (unfold withUserAgent; destruct (userAgent c) eqn:Hua; [| done]);
      try done.
    - unfold onInvite, handleIncomingCall, setTimeout.
      by destruct (is_true_string _).
    - unfold stateChange.
      apply (foldl_preserves (fun d => connected d = connected c /\
                                       userAgent d = userAgent c)); [| done].
      intros s d [<- <-]. destruct (listener_connection s r newState d). by split.
    - unfold inviteRejected. destruct (is_Inviter _); [| done].
      by apply (foldl_preserves (fun d => connected d = connected c /\
                                          userAgent d = userAgent c)).
    - unfold fire. destruct (timers c !! i) as [t|]; simpl; [| done].
      by destruct (runTimer_only_commands (callback t)
                     (set_timers (delete i (timers c)) c)) as (_&->&_&->&_).
    - unfold makeCall. by destruct (negb _).
    - by destruct (answerCall_only_commands sessionId options c) as (_&->&_&->&_).
    - by destruct (hangupCall_only_commands sessionId c) as (_&->&_&->&_). }
  repeat split; [done | done |]. unfold isConnected. by rewrite Hc, Hua.
Qed.

Lemma calls_keep_connection_witness :
  isConnected (apply exampleEnv (StateChange 0 "Terminated") callingClient)
    = isConnected callingClient.
Proof.
  apply (calls_keep_connection exampleEnv (StateChange 0 "Terminated") callingClient).
  reflexivity.
Defined.
